(** * A shallow embedding of [src/main.py]

    The program is a small HTTP server ([CatFramework]) that serves static
    files and relays form bodies over UDP, and a UDP listener
    ([run_socket_server]) that decodes each datagram into a document and
    inserts it into a MongoDB collection ([MongoDBClient]).

    Conventions of the embedding.
    - Python [bytes] is [list byte].
    - Python [str] is a [string] holding the UTF-8 encoding of the text.
      The program only ever splits text on ASCII characters, and an ASCII
      byte never occurs inside a multi-byte UTF-8 sequence, so splitting the
      encoding is splitting the text.
    - A [dict] with [str] keys is a [gmap string string].
    - Exceptions are values of [exn]; fallible code returns [result].
    - Effects (log records, documents handed to the store, bytes written to
      the HTTP connection, datagrams sent) are recorded in explicit state or
      in an output trace. *)

From Stdlib Require Import ZArith NArith Ascii String List Bool Lia.
From Stdlib.Strings Require Import Byte.
From stdpp Require Import base option list gmap strings fin_maps.

Open Scope string_scope.
Open Scope list_scope.

(** ** Exceptions *)

Inductive exn : Type :=
| ValueError (msg : string)
| UnicodeDecodeError
| ConnectionFailure
| OtherStoreError
| FileNotFoundError
| IsADirectoryError
| OSError (msg : string).

(** [UnicodeDecodeError] is a subclass of [ValueError]: an
    [except ValueError] clause catches both. *)
Definition isinstance_ValueError (e : exn) : bool :=
  match e with
  | ValueError _ | UnicodeDecodeError => true
  | _ => false
  end.

Definition isinstance_ConnectionFailure (e : exn) : bool :=
  match e with
  | ConnectionFailure => true
  | _ => false
  end.

Inductive result (A : Type) : Type :=
| Ok (a : A)
| Raise (e : exn).
Arguments Ok {A} a.
Arguments Raise {A} e.

Definition rbind {A B} (r : result A) (k : A -> result B) : result B :=
  match r with
  | Ok a => k a
  | Raise e => Raise e
  end.

Declare Scope result_scope.
Delimit Scope result_scope with result.
Notation "x <-- r ;; k" := (rbind r (fun x => k))
  (at level 100, r at next level, right associativity) : result_scope.

(** ** The Python library functions the program calls *)

Module Py.

(** *** [str.split(sep)] for a one-character separator.

    [split_aux] returns the piece before the first separator and the list
    of the pieces after it; [split "" = [""]] as in Python. *)
Fixpoint split_aux (sep : ascii) (s : string) : string * list string :=
  match s with
  | EmptyString => (EmptyString, [])
  | String c s' =>
      let '(p, ps) := split_aux sep s' in
      if Ascii.eqb c sep then (EmptyString, p :: ps) else (String c p, ps)
  end.

Definition split (sep : ascii) (s : string) : list string :=
  let '(p, ps) := split_aux sep s in p :: ps.

(** [sep in s] *)
Fixpoint contains (sep : ascii) (s : string) : bool :=
  match s with
  | EmptyString => false
  | String c s' => Ascii.eqb c sep || contains sep s'
  end.

(** [s.replace(a, b)] for one-character [a] and [b]. *)
Fixpoint replace (a b : ascii) (s : string) : string :=
  match s with
  | EmptyString => EmptyString
  | String c s' => String (if Ascii.eqb c a then b else c) (replace a b s')
  end.

(** *** UTF-8, [bytes.decode(errors=...)].

    The decoder of CPython: a byte below 0x80 is a character; 0xC2..0xDF
    starts a two-byte, 0xE0..0xEF a three-byte and 0xF0..0xF4 a four-byte
    sequence, with the second byte restricted after 0xE0, 0xED, 0xF0 and
    0xF4 (no overlong forms, no surrogates, nothing above U+10FFFF).  With
    [Strict] an ill-formed sequence raises; with [Replace] the lead byte
    and the continuation bytes accepted so far become one U+FFFD and
    decoding resumes at the offending byte. *)
Inductive errors_mode : Type := Strict | Replace.

Definition is_continuation (b : byte) : bool :=
  let c := Byte.to_N b in ((128 <=? c) && (c <=? 191))%N.

(** The second byte of a three-byte sequence with lead byte value [c1]. *)
Definition second_of_three_ok (c1 : N) (b2 : byte) : bool :=
  let c2 := Byte.to_N b2 in
  is_continuation b2 &&
  negb ((c1 =? 224) && (c2 <? 160))%N &&
  negb ((c1 =? 237) && (160 <=? c2))%N.

(** The second byte of a four-byte sequence with lead byte value [c1]. *)
Definition second_of_four_ok (c1 : N) (b2 : byte) : bool :=
  let c2 := Byte.to_N b2 in
  is_continuation b2 &&
  negb ((c1 =? 240) && (c2 <? 144))%N &&
  negb ((c1 =? 244) && (144 <=? c2))%N.

(** U+FFFD in UTF-8. *)
Definition REPLACEMENT_CHARACTER : list byte := [xef; xbf; xbd].

Definition on_error (errors : errors_mode) (k : option (list byte))
  : option (list byte) :=
  match errors with
  | Strict => None
  | Replace => (fun l => REPLACEMENT_CHARACTER ++ l) <$> k
  end.

Fixpoint utf8_decode (errors : errors_mode) (bs : list byte)
  : option (list byte) :=
  match bs with
  | [] => Some []
  | b1 :: r1 =>
      let c1 := Byte.to_N b1 in
      if (c1 <? 128)%N then (fun l => b1 :: l) <$> utf8_decode errors r1
      else if (c1 <? 194)%N then on_error errors (utf8_decode errors r1)
      else if (c1 <? 224)%N then
        match r1 with
        | [] => on_error errors (Some [])
        | b2 :: r2 =>
            if is_continuation b2
            then (fun l => b1 :: b2 :: l) <$> utf8_decode errors r2
            else on_error errors (utf8_decode errors r1)
        end
      else if (c1 <? 240)%N then
        match r1 with
        | [] => on_error errors (Some [])
        | b2 :: r2 =>
            if second_of_three_ok c1 b2 then
              match r2 with
              | [] => on_error errors (Some [])
              | b3 :: r3 =>
                  if is_continuation b3
                  then (fun l => b1 :: b2 :: b3 :: l) <$> utf8_decode errors r3
                  else on_error errors (utf8_decode errors r2)
              end
            else on_error errors (utf8_decode errors r1)
        end
      else if (c1 <? 245)%N then
        match r1 with
        | [] => on_error errors (Some [])
        | b2 :: r2 =>
            if second_of_four_ok c1 b2 then
              match r2 with
              | [] => on_error errors (Some [])
              | b3 :: r3 =>
                  if is_continuation b3 then
                    match r3 with
                    | [] => on_error errors (Some [])
                    | b4 :: r4 =>
                        if is_continuation b4
                        then (fun l => b1 :: b2 :: b3 :: b4 :: l)
                               <$> utf8_decode errors r4
                        else on_error errors (utf8_decode errors r3)
                    end
                  else on_error errors (utf8_decode errors r2)
              end
            else on_error errors (utf8_decode errors r1)
        end
      else on_error errors (utf8_decode errors r1)
  end.

(** [data.decode()]: UTF-8, strict. *)
Definition decode (data : list byte) : result string :=
  match utf8_decode Strict data with
  | Some bs => Ok (string_of_list_byte bs)
  | None => Raise UnicodeDecodeError
  end.

(** [text.encode()]: the text is already held as its UTF-8 encoding. *)
Definition encode (text : string) : list byte := list_byte_of_string text.

(** *** [urllib.parse.unquote_plus] *)

Definition hex_value (c : ascii) : option N :=
  let n := N_of_ascii c in
  if ((48 <=? n) && (n <=? 57))%N then Some (n - 48)%N
  else if ((65 <=? n) && (n <=? 70))%N then Some (n - 55)%N
  else if ((97 <=? n) && (n <=? 102))%N then Some (n - 87)%N
  else None.

(** One item of [bits[1:]] in [unquote_to_bytes]: the text after a ['%'].
    When its first two characters are hexadecimal digits they become one
    byte; otherwise the ['%'] is kept and the item is copied. *)
Definition unquote_item (item : string) : string :=
  match item with
  | String h (String l rest) =>
      match hex_value h, hex_value l with
      | Some hi, Some lo => String (ascii_of_N (16 * hi + lo)) rest
      | _, _ => String "%" item
      end
  | _ => String "%" item
  end.

Definition unquote_to_bytes (s : string) : list byte :=
  match split "%" s with
  | [] => []
  | first :: items =>
      list_byte_of_string
        (first ++ String.concat EmptyString (map unquote_item items))
  end.

(** One maximal run of ASCII characters: [unquote_to_bytes(run).decode(
    'utf-8', 'replace')]. *)
Definition unquote_ascii_run (run : string) : string :=
  match utf8_decode Replace (unquote_to_bytes run) with
  | Some bs => string_of_list_byte bs
  | None => EmptyString
  end.

Definition is_ascii (c : ascii) : bool := (N_of_ascii c <? 128)%N.

(** [_asciire.split]: the maximal ASCII runs are unquoted, the text between
    them is copied.  [run] is the current ASCII run, last character
    first. *)
Fixpoint unquote_runs (run : string) (s : string) : string :=
  match s with
  | EmptyString => unquote_ascii_run (String.rev run)
  | String c s' =>
      if is_ascii c then unquote_runs (String c run) s'
      else unquote_ascii_run (String.rev run)
             ++ String c (unquote_runs EmptyString s')
  end.

Definition unquote (s : string) : string :=
  if contains "%" s then unquote_runs EmptyString s else s.

Definition unquote_plus (s : string) : string :=
  unquote (replace "+" " " s).

End Py.

(** *** [datetime.now().strftime(fmt)]

    The fields of a [datetime]; [datetime.now()] reads the system clock, so
    the value is an input of the model. *)
Record datetime : Type := {
  year : N; month : N; day : N;
  hour : N; minute : N; second : N; microsecond : N
}.

(** What the clock can return here: a four-digit year (for a year below
    1000 the width of [%Y] depends on the platform's C library) and the
    other fields in the ranges of [datetime]. *)
Definition wf_datetime (dt : datetime) : bool :=
  ((1000 <=? year dt) && (year dt <=? 9999) &&
   (1 <=? month dt) && (month dt <=? 12) &&
   (1 <=? day dt) && (day dt <=? 31) &&
   (hour dt <=? 23) && (minute dt <=? 59) && (second dt <=? 59) &&
   (microsecond dt <=? 999999))%N.

Module Fmt.

Definition digit_char (d : N) : ascii := ascii_of_N (48 + d).

(** The decimal digits of [n] in front of [acc], least significant digit
    produced first. *)
Fixpoint decimal_digits (fuel : nat) (n : N) (acc : string) : string :=
  match fuel with
  | O => acc
  | S fuel' =>
      let acc' := String (digit_char (n mod 10)) acc in
      if (n / 10 =? 0)%N then acc' else decimal_digits fuel' (n / 10) acc'
  end.

(** [str(n)]: a number below [2 ^ fuel] has at most [fuel] digits. *)
Definition str_of_N (n : N) : string :=
  decimal_digits (S (N.to_nat (N.log2 n))) n EmptyString.

Fixpoint zeros (k : nat) : string :=
  match k with
  | O => EmptyString
  | S k' => String "0" (zeros k')
  end.

(** [s.zfill(width)] for an unsigned numeral. *)
Definition zfill (width : nat) (s : string) : string :=
  zeros (width - String.length s) ++ s.

(** One conversion of the format; the program uses [Y m d H M S f]. *)
Definition directive (d : ascii) (dt : datetime) : string :=
  if Ascii.eqb d "Y" then str_of_N (year dt)
  else if Ascii.eqb d "m" then zfill 2 (str_of_N (month dt))
  else if Ascii.eqb d "d" then zfill 2 (str_of_N (day dt))
  else if Ascii.eqb d "H" then zfill 2 (str_of_N (hour dt))
  else if Ascii.eqb d "M" then zfill 2 (str_of_N (minute dt))
  else if Ascii.eqb d "S" then zfill 2 (str_of_N (second dt))
  else if Ascii.eqb d "f" then zfill 6 (str_of_N (microsecond dt))
  else String "%" (String d EmptyString).

Fixpoint strftime (fmt : string) (dt : datetime) : string :=
  match fmt with
  | EmptyString => EmptyString
  | String c rest =>
      if Ascii.eqb c "%" then
        match rest with
        | String d rest' => directive d dt ++ strftime rest' dt
        | EmptyString => String c EmptyString
        end
      else String c (strftime rest dt)
  end.

(** The shape [YYYY-MM-DD HH:MM:SS.ffffff]: a digit where the pattern has
    a letter, the same character elsewhere. *)
Inductive pat : Type := Digit | Lit (c : ascii).

Definition is_digit (c : ascii) : bool :=
  let n := N_of_ascii c in ((48 <=? n) && (n <=? 57))%N.

Fixpoint matches (p : list pat) (s : string) : bool :=
  match p, s with
  | [], EmptyString => true
  | Digit :: p', String c s' => is_digit c && matches p' s'
  | Lit l :: p', String c s' => Ascii.eqb c l && matches p' s'
  | _, _ => false
  end.

Definition is_letter (c : ascii) : bool :=
  let n := N_of_ascii c in
  (((65 <=? n) && (n <=? 90)) || ((97 <=? n) && (n <=? 122)))%N.

Fixpoint pattern_of (shape : string) : list pat :=
  match shape with
  | EmptyString => []
  | String c s' => (if is_letter c then Digit else Lit c) :: pattern_of s'
  end.

Fixpoint all_digits (s : string) : bool :=
  match s with
  | EmptyString => true
  | String c s' => is_digit c && all_digits s'
  end.

(** [k] digits in a row. *)
Definition digits (k : nat) : list pat := replicate k Digit.

Definition TIMESTAMP_PATTERN : list pat :=
  pattern_of "YYYY-MM-DD HH:MM:SS.ffffff".

Definition is_timestamp (s : string) : bool := matches TIMESTAMP_PATTERN s.

End Fmt.

(** ** [class Config] *)

Module Config.
Definition SOCKET_HOST : string := "".
Definition SOCKET_PORT : Z := 5000.
Definition DB_URI : string := "mongodb://mongo:27017".
Definition BUFFER_SIZE : nat := 1024.
End Config.

(** ** [class MongoDBClient] and the UDP listener *)

Inductive log_arg : Type :=
| ArgBytes (data : list byte)
| ArgExn (e : exn).

Inductive log_level : Type := INFO | ERROR.

Record log_record : Type := {
  level : log_level;
  message : string;
  arg : log_arg
}.

(** How the store answers an [insert_one]: it takes the document, it
    cannot be reached ([ConnectionFailure]), or the driver or the server
    raises anything else (a document it refuses, a duplicate [_id]). *)
Inductive store_status : Type := Accepting | Unreachable | Failing.

(** The [messages] collection of database [homework] (the documents handed
    to [insert_one], oldest first; the [_id] the driver adds is the
    store's own) and the log, oldest record first. *)
Record world : Type := {
  messages : list (gmap string string);
  log : list log_record
}.

Definition logging (lv : log_level) (msg : string) (a : log_arg) (w : world)
  : world :=
  {| messages := messages w;
     log := log w ++ [{| level := lv; message := msg; arg := a |}] |}.

Definition insert_one (store : store_status) (doc : gmap string string)
    (coll : list (gmap string string)) : result (list (gmap string string)) :=
  match store with
  | Accepting => Ok (coll ++ [doc])
  | Unreachable => Raise ConnectionFailure
  | Failing => Raise OtherStoreError
  end.

(** [for key, value in items]: each item is unpacked into exactly two
    names; the comprehension assigns [key: value] in order. *)
Fixpoint dict_comprehension (items : list (list string))
    (d : gmap string string) : result (gmap string string) :=
  match items with
  | [] => Ok d
  | [key; value] :: rest => dict_comprehension rest (<[key := value]> d)
  | [] :: _ =>
      Raise (ValueError "not enough values to unpack (expected 2, got 0)")
  | [_] :: _ =>
      Raise (ValueError "not enough values to unpack (expected 2, got 1)")
  | _ :: _ => Raise (ValueError "too many values to unpack (expected 2)")
  end.

Definition DATE_FORMAT : string := "%Y-%m-%d %H:%M:%S.%f".

(** Lines 51 to 58: the document built from a datagram. *)
Definition parse_message (now : datetime) (data : list byte)
  : result (gmap string string) :=
  (text <-- Py.decode data ;;
   let parsed_data := Py.unquote_plus text in
   parsed_data <-- dict_comprehension
       (map (Py.split "=") (Py.split "&" parsed_data)) ∅ ;;
   Ok (<["date" := Fmt.strftime DATE_FORMAT now]> parsed_data))%result.

(** The body of the [try]. *)
Definition save_message_try (now : datetime) (store : store_status)
    (data : list byte) (coll : list (gmap string string))
  : result (list (gmap string string)) :=
  (parsed_data <-- parse_message now data ;;
   insert_one store parsed_data coll)%result.

Definition save_message_from_udp_data (now : datetime) (store : store_status)
    (data : list byte) (w : world) : world :=
  match save_message_try now store data (messages w) with
  | Ok coll => {| messages := coll; log := log w |}
  | Raise e =>
      if isinstance_ValueError e
      then logging ERROR "Data parsing error: %s" (ArgExn e) w
      else if isinstance_ConnectionFailure e
      then logging ERROR "Could not connect to MongoDB: %s" (ArgExn e) w
      else logging ERROR "Failed to save data: %s" (ArgExn e) w
  end.

(** One datagram reaching the socket, with the clock and the state of the
    store at the time it is handled. *)
Record arrival : Type := {
  datagram : list byte;
  clock : datetime;
  store : store_status
}.

(** [sock.recvfrom(bufsize)]: a longer datagram is cut to the buffer. *)
Definition recvfrom (bufsize : nat) (a : arrival) : list byte :=
  take bufsize (datagram a).

(** The [while True] loop of [run_socket_server], run over the datagrams
    that arrive; after the last one the loop is waiting in [recvfrom]. *)
Fixpoint run_socket_server (arrivals : list arrival) (w : world) : world :=
  match arrivals with
  | [] => w
  | a :: rest =>
      let data := recvfrom Config.BUFFER_SIZE a in
      let w := logging INFO "Received data: %s" (ArgBytes data) w in
      run_socket_server rest
        (save_message_from_udp_data (clock a) (store a) data w)
  end.

(** ** [class CatFramework]: the HTTP request handler *)

(** What a handler does to the outside, in order. *)
Inductive wire_event : Type :=
| SendResponse (status : Z)
| SendHeader (name value : string)
| EndHeaders
| WfileWrite (body : list byte)
| SendTo (data : list byte) (host : string) (port : Z).

(** A handler run: the events so far, then a value or the exception that
    ended the run. *)
Definition handler (A : Type) : Type := list wire_event * result A.

Definition hret {A} (a : A) : handler A := ([], Ok a).

Definition hbind {A B} (h : handler A) (k : A -> handler B) : handler B :=
  match h with
  | (tr, Ok a) => let '(tr', r) := k a in (tr ++ tr', r)
  | (tr, Raise e) => (tr, Raise e)
  end.

Definition emit (e : wire_event) : handler unit := ([e], Ok tt).

Definition lift {A} (r : result A) : handler A := ([], r).

Declare Scope handler_scope.
Delimit Scope handler_scope with handler.
Notation "x <- h ;; k" := (hbind h (fun x => k))
  (at level 100, h at next level, right associativity) : handler_scope.
Notation "h ;;; k" := (hbind h (fun _ => k))
  (at level 100, right associativity) : handler_scope.

(** The library functions whose tables and grammars are not part of the
    program: [urlparse(target).path] (it can raise [ValueError]),
    [mimetypes.guess_type(file)[0]] and [int(text)]. *)
Class PyLib : Type := {
  urlparse_path : string -> result string;
  guess_type : string -> option string;
  int_of_str : string -> result Z
}.

(** What a path names on the disk of the server. *)
Inductive node : Type :=
| File (content : list byte)
| Directory.

(** Where the program is installed: [Config.BASE_DIR] and the disk. *)
Record deployment : Type := {
  BASE_DIR : string;
  disk : string -> option node
}.

(** A request as the handler sees it: the target of the request line, the
    headers, and the bytes the client sends after them. *)
Record request : Type := {
  path : string;
  headers : list (string * string);
  rfile : list byte
}.

Definition starts_with_slash (s : string) : bool :=
  match s with
  | String c _ => Ascii.eqb c "/"
  | EmptyString => false
  end.

(** The number of slashes a path text starts with. *)
Fixpoint leading_slashes (s : string) : nat :=
  match s with
  | String c s' => if Ascii.eqb c "/" then S (leading_slashes s') else 0
  | EmptyString => 0
  end.

(** The root [pathlib] reads off a POSIX path text: none for a relative
    path, [//] for exactly two leading slashes, [/] otherwise. *)
Definition root_of (s : string) : string :=
  match leading_slashes s with
  | 0 => ""
  | 2 => "//"
  | _ => "/"
  end.

(** The parts after the root: the pieces between slashes, without the
    empty ones (doubled and trailing slashes) and without [.]; [..] is
    kept. *)
Definition components (s : string) : list string :=
  List.filter (fun x => negb (String.eqb x "") && negb (String.eqb x "."))
    (Py.split "/" s).

(** [str(path)] for a root and its parts. *)
Definition str_path (root : string) (parts : list string) : string :=
  let s := (root ++ String.concat "/" parts)%string in
  if String.eqb s "" then "." else s.

(** [str(base.joinpath(rel))] for the text [base] of a path: an absolute
    [rel] replaces [base], a relative one adds its parts to those of
    [base]. *)
Definition joinpath (base rel : string) : string :=
  if starts_with_slash rel then str_path (root_of rel) (components rel)
  else str_path (root_of base) (components base ++ components rel).

Definition TEMPLATES_DIR (dep : deployment) : string :=
  joinpath (BASE_DIR dep) "templates".

(** [file.exists()] *)
Definition exists_ (dep : deployment) (file : string) : bool :=
  match disk dep file with
  | Some _ => true
  | None => false
  end.

(** [open(file, "rb")] followed by [f.read()] *)
Definition open_read (dep : deployment) (file : string)
  : result (list byte) :=
  match disk dep file with
  | Some (File content) => Ok content
  | Some Directory => Raise IsADirectoryError
  | None => Raise FileNotFoundError
  end.

Definition lower_char (c : ascii) : ascii :=
  let n := N_of_ascii c in
  if ((65 <=? n) && (n <=? 90))%N then ascii_of_N (n + 32) else c.

Fixpoint lower (s : string) : string :=
  match s with
  | EmptyString => EmptyString
  | String c s' => String (lower_char c) (lower s')
  end.

(** [headers.get(name)]: the first header of that name, whatever its
    case. *)
Fixpoint headers_get (name : string) (hs : list (string * string))
  : option string :=
  match hs with
  | [] => None
  | (n, v) :: hs' =>
      if String.eqb (lower n) (lower name) then Some v
      else headers_get name hs'
  end.

(** [rfile.read(size)]: up to [size] bytes, everything for [-1]. *)
Definition read (size : Z) (stream : list byte) : result (list byte) :=
  if (size <? -1)%Z
  then Raise (ValueError "read length must be non-negative or -1")
  else if (size =? -1)%Z then Ok stream
  else Ok (take (Z.to_nat size) stream).

(** [s[1:]] *)
Definition drop_first (s : string) : string :=
  match s with
  | String _ s' => s'
  | EmptyString => EmptyString
  end.

(** The largest payload of a UDP datagram over IPv4. *)
Definition MAX_UDP_PAYLOAD : Z := 65507.

(** [client_socket.sendto(data, (host, port))]: a payload that does not
    fit in one datagram raises [OSError] and nothing is sent. *)
Definition sendto (data : list byte) (host : string) (port : Z)
  : handler unit :=
  if (MAX_UDP_PAYLOAD <? Z.of_nat (length data))%Z
  then lift (Raise (OSError "[Errno 90] Message too long"))
  else emit (SendTo data host port).

Section CatFramework.
Context {lib : PyLib}.
Variable dep : deployment.

Definition send_html (filename : string) (status : Z) : handler unit :=
  (emit (SendResponse status) ;;;
   emit (SendHeader "Content-type" "text/html") ;;;
   emit EndHeaders ;;;
   content <- lift (open_read dep (joinpath (TEMPLATES_DIR dep) filename)) ;;
   emit (WfileWrite content))%handler.

Definition send_static (filename : string) (status : Z) : handler unit :=
  (emit (SendResponse status) ;;;
   let mimetype := default "text/plain" (guess_type filename) in
   emit (SendHeader "Content-type" mimetype) ;;;
   emit EndHeaders ;;;
   content <- lift (open_read dep filename) ;;
   emit (WfileWrite content))%handler.

Definition do_GET (req : request) : handler unit :=
  (router <- lift (urlparse_path (path req)) ;;
   if String.eqb router "/" then send_html "index.html" 200
   else
     let file := joinpath (BASE_DIR dep) (drop_first router) in
     if exists_ dep file then send_static file 200
     else send_html "error.html" 404)%handler.

(** [int(self.headers.get("Content-Length", 0))] *)
Definition content_length (req : request) : result Z :=
  match headers_get "Content-Length" (headers req) with
  | Some v => int_of_str v
  | None => Ok 0%Z
  end.

Definition do_POST (req : request) : handler unit :=
  (size <- lift (content_length req) ;;
   raw <- lift (read size (rfile req)) ;;
   data <- lift (Py.decode raw) ;;
   sendto (Py.encode data) Config.SOCKET_HOST Config.SOCKET_PORT ;;;
   emit (SendResponse 302) ;;;
   emit (SendHeader "Location" "/") ;;;
   emit EndHeaders)%handler.

End CatFramework.

(** ** What a client and the listener see of a handler run *)

Definition statuses (tr : list wire_event) : list Z :=
  omap (fun e => match e with SendResponse s => Some s | _ => None end) tr.

Definition datagrams_to (host : string) (port : Z) (tr : list wire_event)
  : list (list byte) :=
  omap (fun e => match e with
                 | SendTo d h p =>
                     if String.eqb h host && (p =? port)%Z then Some d
                     else None
                 | _ => None
                 end) tr.

(** A form submission end to end: the handler answers the browser, and the
    datagrams it sent to the listener's address are handled there. *)
Definition submit_form {lib : PyLib} (req : request) (now : datetime)
    (st : store_status) (w : world) : handler unit * world :=
  let out := do_POST req in
  (out,
   run_socket_server
     (map (fun d => {| datagram := d; clock := now; store := st |})
          (datagrams_to Config.SOCKET_HOST Config.SOCKET_PORT (fst out)))
     w).

(** ** A reference instance of the library and a small site, for running
    the handlers on examples *)

Module Reference.

Fixpoint decimal (s : string) (acc : Z) : option Z :=
  match s with
  | EmptyString => Some acc
  | String c s' =>
      if Fmt.is_digit c
      then decimal s' (10 * acc + Z.of_N (N_of_ascii c) - 48)%Z
      else None
  end.

(** [int(text)] on plain decimal numerals. *)
Definition int_of_str (s : string) : result Z :=
  match s with
  | EmptyString => Raise (ValueError "invalid literal for int()")
  | String c s' =>
      match (if Ascii.eqb c "-"
             then (if String.eqb s' "" then None else Z.opp <$> decimal s' 0%Z)
             else decimal s 0%Z) with
      | Some z => Ok z
      | None => Raise (ValueError "invalid literal for int()")
      end
  end.

Fixpoint before (sep : ascii) (s : string) : string :=
  match s with
  | EmptyString => EmptyString
  | String c s' => if Ascii.eqb c sep then EmptyString
                   else String c (before sep s')
  end.

(** [urlparse(target).path] on an origin-form target: what precedes the
    fragment and the query. *)
Definition urlparse_path (target : string) : result string :=
  Ok (before "?" (before "#" target)).

Definition ends_with (suffix s : string) : bool :=
  String.eqb
    (String.substring (String.length s - String.length suffix)
       (String.length suffix) s) suffix
  && (String.length suffix <=? String.length s)%nat.

Definition guess_type (file : string) : option string :=
  if ends_with ".html" file then Some "text/html"
  else if ends_with ".css" file then Some "text/css"
  else if ends_with ".png" file then Some "image/png"
  else None.

Definition lib : PyLib := Build_PyLib urlparse_path guess_type int_of_str.

Definition INDEX_HTML : list byte := list_byte_of_string "<h1>index</h1>".
Definition ERROR_HTML : list byte := list_byte_of_string "<h1>404</h1>".
Definition STYLE_CSS : list byte := list_byte_of_string "h1 {}".

Definition site : deployment :=
  {| BASE_DIR := "/app";
     disk := fun p =>
       if String.eqb p "/app" then Some Directory
       else if String.eqb p "/app/templates" then Some Directory
       else if String.eqb p "/app/templates/index.html"
       then Some (File INDEX_HTML)
       else if String.eqb p "/app/templates/error.html"
       then Some (File ERROR_HTML)
       else if String.eqb p "/app/static" then Some Directory
       else if String.eqb p "/app/static/style.css"
       then Some (File STYLE_CSS)
       else None |}.

Definition noon : datetime :=
  {| year := 2024; month := 3; day := 9;
     hour := 12; minute := 0; second := 5; microsecond := 1234 |}.

Definition empty_world : world := {| messages := []; log := [] |}.

Definition get (target : string) : request :=
  {| path := target; headers := []; rfile := [] |}.

Definition post (target : string) (body : list byte) : request :=
  {| path := target;
     headers := [("Content-Length",
                  Fmt.str_of_N (N.of_nat (List.length body)))];
     rfile := body |}.

End Reference.

(** ** The decoder as the specification words it

    "split each pair on the first [=] into (key, value)": the text before
    the first [=] and all the text after it; a pair without [=] fails. *)

Module Worded.

Fixpoint partition_first (sep : ascii) (s : string)
  : option (string * string) :=
  match s with
  | EmptyString => None
  | String c s' =>
      if Ascii.eqb c sep then Some (EmptyString, s')
      else (fun kv : string * string => (String c (fst kv), snd kv))
             <$> partition_first sep s'
  end.

Fixpoint decode_pairs (pairs : list string) (d : gmap string string)
  : result (gmap string string) :=
  match pairs with
  | [] => Ok d
  | el :: rest =>
      match partition_first "=" el with
      | Some (key, value) => decode_pairs rest (<[key := value]> d)
      | None =>
          Raise (ValueError "not enough values to unpack (expected 2, got 1)")
      end
  end.

Definition parse_message (now : datetime) (data : list byte)
  : result (gmap string string) :=
  (text <-- Py.decode data ;;
   parsed_data <-- decode_pairs (Py.split "&" (Py.unquote_plus text)) ∅ ;;
   Ok (<["date" := Fmt.strftime DATE_FORMAT now]> parsed_data))%result.

End Worded.

(** [s.count(sep)] *)
Fixpoint count (sep : ascii) (s : string) : nat :=
  match s with
  | EmptyString => 0
  | String c s' => (if Ascii.eqb c sep then 1 else 0) + count sep s'
  end.

(** A document that carries a [date] in the fixed format. *)
Definition dated (doc : gmap string string) : Prop :=
  exists ts, doc !! "date" = Some ts /\ Fmt.is_timestamp ts = true.

Definition ALLOWED_STATUSES : list Z := [200; 302; 404]%Z.

(** Text with neither of the two separators of a form body. *)
Definition plain (s : string) : bool :=
  negb (Py.contains "=" s) && negb (Py.contains "&" s).

(** The key of a pair: what precedes its first [=]. *)
Definition key_of (el : string) : string :=
  hd EmptyString (Py.split "=" el).

Definition received (data : list byte) : log_record :=
  {| level := INFO; message := "Received data: %s"; arg := ArgBytes data |}.

Definition parsing_error (e : exn) : log_record :=
  {| level := ERROR; message := "Data parsing error: %s"; arg := ArgExn e |}.

(** ** What one datagram leaves in the collection *)

(** The document a datagram adds, if it adds one: the store has to take
    it and the received bytes have to parse. *)
Definition stored_document (a : arrival) : option (gmap string string) :=
  match store a, parse_message (clock a) (recvfrom Config.BUFFER_SIZE a) with
  | Accepting, Ok doc => Some doc
  | _, _ => None
  end.

Definition is_error (r : log_record) : bool :=
  match level r with ERROR => true | INFO => false end.

Definition is_info (r : log_record) : bool :=
  match level r with INFO => true | ERROR => false end.

(** A datagram as it is after the cut to the receive buffer. *)
Definition truncated (a : arrival) : arrival :=
  {| datagram := take Config.BUFFER_SIZE (datagram a);
     clock := clock a; store := store a |}.

(** The text of a form with the fields [kvs]: [k=v] joined by [&]. *)
Fixpoint join_pairs (kvs : list (string * string)) : string :=
  match kvs with
  | [] => EmptyString
  | (k, v) :: rest =>
      match rest with
      | [] => k ++ "=" ++ v
      | _ :: _ => k ++ "=" ++ v ++ "&" ++ join_pairs rest
      end
  end.

(** The mapping a comprehension builds from [kvs], assigned in order. *)
Definition assign_all (kvs : list (string * string))
    (d : gmap string string) : gmap string string :=
  foldl (fun d kv => <[fst kv := snd kv]> d) d kvs.

(** ** The two server processes, from start to end

    [run_socket_server] (lines 142 to 159) and [run_http_server] (lines
    121 to 131): bind, announce, serve until something stops the loop,
    then release. *)

(** What ends a serving loop: Ctrl-C, or any other exception that reaches
    the [except Exception] of the process, with its text. *)
Inductive stop_cause : Type :=
| KeyboardInterrupt
| Failure (reason : string).

(** What a process does to its resources and its log, in order. *)
Inductive process_event : Type :=
| Bound (host : string) (port : Z)
| LogInfo (text : string)
| LogError (text reason : string)
| LoopRecord (r : log_record)
| Served (run : handler unit)
| ClientOpened (uri : string)
| ClientClosed
| SocketClosed.

(** How far a process has got: still in its loop, returned, or ended by
    an exception nothing caught. *)
Inductive process_exit : Type :=
| Serving
| Returned
| Died (reason : string).

Record process_result : Type := {
  trace : list process_event;
  exit : process_exit
}.

(** Where a stop finds the listener: waiting in [recvfrom] (Ctrl-C, or an
    exception of [recvfrom]), or handling the datagram [a].  No handler
    of [save_message_from_udp_data] catches [KeyboardInterrupt], so Ctrl-C
    can end the handling of a datagram after its receipt is logged and
    before its document or its error is written. *)
Inductive socket_stop : Type :=
| WhileWaiting (c : stop_cause)
| WhileHandling (a : arrival).

Definition cause_of (s : socket_stop) : stop_cause :=
  match s with
  | WhileWaiting c => c
  | WhileHandling _ => KeyboardInterrupt
  end.

(** What reaches the UDP socket while the listener runs. *)
Inductive socket_event : Type :=
| Datagram (a : arrival)
| SocketStop (s : socket_stop).

(** The datagrams the loop handles to the end: those before the first
    stop. *)
Fixpoint heard (events : list socket_event) : list arrival :=
  match events with
  | Datagram a :: rest => a :: heard rest
  | _ => []
  end.

Fixpoint first_stop (events : list socket_event) : option socket_stop :=
  match events with
  | [] => None
  | Datagram _ :: rest => first_stop rest
  | SocketStop s :: _ => Some s
  end.

(** What the loop has written when it ends: the records of the datagrams
    it handled, and the receipt of the one a stop cut short. *)
Definition cut_short (s : option socket_stop) (w : world) : world :=
  match s with
  | Some (WhileHandling a) =>
      logging INFO "Received data: %s"
        (ArgBytes (recvfrom Config.BUFFER_SIZE a)) w
  | _ => w
  end.

(** The [except] and [finally] clauses of a server: Ctrl-C passes in
    silence, another exception is logged; then the resource is released
    and the stop is announced.  Without a stop the loop is still on. *)
Definition wind_down (c : option stop_cause) (error_text stopped : string)
    (release : process_event) : list process_event * process_exit :=
  match c with
  | None => ([], Serving)
  | Some KeyboardInterrupt => ([release; LogInfo stopped], Returned)
  | Some (Failure reason) =>
      ([LogError error_text reason; release; LogInfo stopped], Returned)
  end.

(** [run_socket_server] as a whole.  [bind_error] is what [sock.bind]
    raises, if it does: the call stands before the [try], so the
    exception leaves the function and only the [with] closes the socket.
    [coll] is the collection the store holds when the process starts. *)
Definition socket_server (bind_error : option string)
    (events : list socket_event) (coll : list (gmap string string))
  : process_result * list (gmap string string) :=
  match bind_error with
  | Some reason => ({| trace := [SocketClosed]; exit := Died reason |}, coll)
  | None =>
      let w := cut_short (first_stop events)
                 (run_socket_server (heard events)
                    {| messages := coll; log := [] |}) in
      let '(ending, ex) :=
        wind_down (cause_of <$> first_stop events) "Socket Server error: %s"
          "Socket Server stopped." ClientClosed in
      ({| trace :=
            [Bound Config.SOCKET_HOST Config.SOCKET_PORT;
             LogInfo "Socket Server running on %s:%s";
             ClientOpened Config.DB_URI]
            ++ map LoopRecord (log w) ++ ending
            ++ match ex with Serving => [] | _ => [SocketClosed] end;
          exit := ex |},
       messages w)
  end.


(** A host with a file outside the directory of the program. *)
Definition host_with_secret : deployment :=
  {| BASE_DIR := "/app";
     disk := fun p =>
       if String.eqb p "/app" then Some Directory
       else if String.eqb p "/app/templates" then Some Directory
       else if String.eqb p "/app/templates/error.html"
       then Some (File Reference.ERROR_HTML)
       else if String.eqb p "/etc/secret"
       then Some (File (list_byte_of_string "hunter2"))
       else None |}.

(** [s] from its first [/] on. *)
Fixpoint from_slash (s : string) : string :=
  match s with
  | EmptyString => EmptyString
  | String c s' => if Ascii.eqb c "/" then s else from_slash s'
  end.

(** [urlparse(target).path] where the target may also be in absolute
    form, [http://authority/path?query]: the authority is not part of the
    path. *)
Definition urlparse_path_absolute (target : string) : result string :=
  if String.prefix "http://" target
  then Reference.urlparse_path
         (from_slash (String.substring 7 (String.length target - 7) target))
  else Reference.urlparse_path target.

Definition absolute_form_lib : PyLib :=
  Build_PyLib urlparse_path_absolute Reference.guess_type
    Reference.int_of_str.

(** How often an event of the kind [is_it] occurs in a trace. *)
Definition occurrences (is_it : process_event -> bool)
    (tr : list process_event) : nat :=
  length (filter (fun e => is_it e = true) tr).

Definition is_client_opened (e : process_event) : bool :=
  match e with ClientOpened _ => true | _ => false end.

Definition is_client_closed (e : process_event) : bool :=
  match e with ClientClosed => true | _ => false end.

Definition is_socket_closed (e : process_event) : bool :=
  match e with SocketClosed => true | _ => false end.



Definition is_loop_record (e : process_event) : bool :=
  match e with LoopRecord _ => true | _ => false end.


(** * Facts about the library functions *)

Lemma append_empty_l (a : string) : ("" ++ a)%string = a.
Proof. reflexivity. Qed.

Lemma append_cons (x : ascii) (a b : string) :
  (String x a ++ b)%string = String x (a ++ b).
Proof. reflexivity. Qed.

Ltac unfold_append := rewrite ?append_cons, ?append_empty_l.

Lemma append_assoc (a b c : string) :
  ((a ++ b) ++ c = a ++ (b ++ c))%string.
Proof. induction a as [|x a IH]; unfold_append; congruence. Qed.

Lemma append_empty_r (a : string) : (a ++ "")%string = a.
Proof. induction a as [|x a IH]; unfold_append; congruence. Qed.

Lemma length_append (a b : string) :
  String.length (a ++ b) = String.length a + String.length b.
Proof. induction a as [|x a IH]; unfold_append; simpl; congruence. Qed.

Lemma contains_append (sep : ascii) (a b : string) :
  Py.contains sep (a ++ b) = Py.contains sep a || Py.contains sep b.
Proof.
  induction a as [|x a IH]; unfold_append; simpl; [done|].
  by rewrite IH, orb_assoc.
Qed.

Lemma count_append (sep : ascii) (a b : string) :
  count sep (a ++ b) = count sep a + count sep b.
Proof.
  induction a as [|x a IH]; unfold_append; simpl; [done|].
  rewrite IH. lia.
Qed.


Section SplitFacts.
Variable sep : ascii.

Lemma split_aux_no_sep (s : string) :
  Py.contains sep s = false -> Py.split_aux sep s = (s, []).
Proof.
  induction s as [|c s IH]; simpl; [done|].
  destruct (Ascii.eqb c sep); simpl; [done|].
  intros H. by rewrite IH.
Qed.

Lemma split_no_sep (s : string) :
  Py.contains sep s = false -> Py.split sep s = [s].
Proof. intros H. unfold Py.split. by rewrite split_aux_no_sep. Qed.

Lemma split_app_sep (a b : string) :
  Py.contains sep a = false ->
  Py.split sep (a ++ String sep b)%string = a :: Py.split sep b.
Proof.
  unfold Py.split. induction a as [|c a IH]; simpl.
  - intros _. rewrite Ascii.eqb_refl. by destruct (Py.split_aux sep b).
  - destruct (Ascii.eqb c sep) eqn:E; simpl; [done|].
    intros H. specialize (IH H).
    destruct (Py.split_aux sep (a ++ String sep b)) as [p ps].
    destruct (Py.split_aux sep b) as [q qs]. by simplify_eq.
Qed.

Lemma length_split (s : string) :
  length (Py.split sep s) = S (count sep s).
Proof.
  unfold Py.split. induction s as [|c s IH]; simpl; [done|].
  destruct (Py.split_aux sep s) as [p ps].
  destruct (Ascii.eqb c sep); simpl in *; lia.
Qed.

Lemma count_contains (s : string) :
  Py.contains sep s = false <-> count sep s = 0.
Proof.
  induction s as [|c s IH]; simpl; [done|].
  destruct (Ascii.eqb c sep); simpl; [split; [done | lia] | done].
Qed.

(** With exactly one separator, splitting on every separator and cutting
    at the first one give the same two pieces. *)
Lemma split_one_sep (s : string) :
  count sep s = 1 ->
  exists k v, Py.split sep s = [k; v] /\
              Worded.partition_first sep s = Some (k, v).
Proof.
  unfold Py.split. induction s as [|c s IH]; simpl; [done|].
  destruct (Ascii.eqb c sep) eqn:E; simpl; intros H.
  - assert (Hs : Py.contains sep s = false) by (apply count_contains; lia).
    rewrite (split_aux_no_sep _ Hs). by exists EmptyString, s.
  - destruct (IH H) as (k & v & Hsp & Hpf).
    destruct (Py.split_aux sep s) as [p ps]. simplify_eq.
    exists (String c k), v. by rewrite Hpf.
Qed.

End SplitFacts.

(** The examples of the library's documentation, and the corner cases the
    program meets. *)
Example unquote_plus_doc : Py.unquote_plus "%7e/abc+def" = "~/abc def".
Proof. reflexivity. Qed.

Example unquote_doc : Py.unquote "abc%20def" = "abc def".
Proof. reflexivity. Qed.

Example unquote_keeps_bad_escape : Py.unquote "100%&%zz%4" = "100%&%zz%4".
Proof. reflexivity. Qed.

Example split_empty : Py.split "&" "" = [""].
Proof. reflexivity. Qed.

Example split_keeps_empty_pieces : Py.split "&" "a&&b&" = ["a"; ""; "b"; ""].
Proof. reflexivity. Qed.

Example decode_rejects_lone_continuation :
  Py.decode [x61; x80] = Raise UnicodeDecodeError.
Proof. reflexivity. Qed.

Example decode_rejects_surrogate :
  Py.decode [xed; xa0; x80] = Raise UnicodeDecodeError.
Proof. reflexivity. Qed.

Lemma replace_absent (a b : ascii) (s : string) :
  Py.contains a s = false -> Py.replace a b s = s.
Proof.
  induction s as [|c s IH]; simpl; [done|].
  destruct (Ascii.eqb c a); simpl; [done|]. intros H. by rewrite IH.
Qed.

(** Text without [+] and [%] is its own unescaped form. *)
Lemma unquote_plus_plain (s : string) :
  Py.contains "+" s = false -> Py.contains "%" s = false ->
  Py.unquote_plus s = s.
Proof.
  intros Hplus Hpct. unfold Py.unquote_plus, Py.unquote.
  by rewrite (replace_absent _ _ _ Hplus), Hpct.
Qed.

(** * Facts about the dict comprehension *)

Lemma dict_comprehension_raises (items : list (list string))
    (d : gmap string string) :
  Exists (fun it => length it <> 2) items ->
  exists msg, dict_comprehension items d = Raise (ValueError msg).
Proof.
  revert d. induction items as [|it items IH]; intros d H.
  - by apply Exists_nil in H.
  - destruct it as [|k [|v [|x it]]]; simpl; eauto.
    apply Exists_cons in H as [H|H]; [done|]. by apply IH.
Qed.

Lemma dict_comprehension_returns (items : list (list string))
    (d : gmap string string) :
  Forall (fun it => length it = 2) items ->
  exists d', dict_comprehension items d = Ok d'.
Proof.
  revert d. induction items as [|it items IH]; intros d H; simpl; [eauto|].
  apply Forall_cons in H as [Hit H].
  destruct it as [|k [|v [|x it]]]; simplify_eq/=. by apply IH.
Qed.

(** Keys that no item assigns keep the value they had. *)
Lemma dict_comprehension_untouched (items : list (list string))
    (d d' : gmap string string) (k : string) :
  Forall (fun it => head it <> Some k) items ->
  dict_comprehension items d = Ok d' ->
  d' !! k = d !! k.
Proof.
  revert d. induction items as [|it items IH]; intros d H Hd; simpl in *.
  - by simplify_eq.
  - apply Forall_cons in H as [Hit H].
    destruct it as [|k0 [|v0 [|x it]]]; simplify_eq/=.
    rewrite (IH _ H Hd). apply lookup_insert_ne. congruence.
Qed.

(** The last item that assigns a key decides its value. *)
Lemma dict_comprehension_last (before after : list (list string))
    (k v : string) (d d' : gmap string string) :
  Forall (fun it => head it <> Some k) after ->
  dict_comprehension (before ++ [k; v] :: after) d = Ok d' ->
  d' !! k = Some v.
Proof.
  revert d. induction before as [|it before IH]; intros d H Hd; simpl in *.
  - rewrite (dict_comprehension_untouched _ _ _ _ H Hd).
    apply lookup_insert_eq.
  - destruct it as [|k0 [|v0 [|x it]]]; simplify_eq/=. by eapply IH.
Qed.

(** Where every pair has exactly one [=], the program's comprehension and
    the worded decoder build the same mapping. *)
Lemma dict_comprehension_worded (pairs : list string)
    (d : gmap string string) :
  Forall (fun el => count "=" el = 1) pairs ->
  dict_comprehension (map (Py.split "=") pairs) d
  = Worded.decode_pairs pairs d.
Proof.
  revert d. induction pairs as [|el pairs IH]; intros d H; simpl; [done|].
  apply Forall_cons in H as [Hel H].
  destruct (split_one_sep _ _ Hel) as (k & v & -> & ->). by apply IH.
Qed.

(** * Facts about [strftime] *)

Module FmtFacts.
Import Fmt.

Lemma is_digit_digit_char (d : N) : (d < 10)%N -> is_digit (digit_char d) = true.
Proof.
  intros H. unfold is_digit, digit_char.
  rewrite N_ascii_embedding by lia.
  apply andb_true_intro; split; apply N.leb_le; lia.
Qed.

Lemma decimal_digits_S (f : nat) (n : N) (acc : string) :
  decimal_digits (S f) n acc =
  if (n / 10 =? 0)%N then String (digit_char (n mod 10)) acc
  else decimal_digits f (n / 10) (String (digit_char (n mod 10)) acc).
Proof. reflexivity. Qed.

Lemma decimal_digits_shape (f : nat) :
  forall (n : N) (acc : string) (w : nat),
    (n < 2 ^ N.of_nat (S f))%N ->
    (n < 10 ^ N.of_nat (S w))%N ->
    exists d,
      decimal_digits (S f) n acc = (d ++ acc)%string /\
      all_digits d = true /\
      1 <= String.length d <= S w /\
      ((10 ^ N.of_nat w <= n)%N -> String.length d = S w).
Proof.
  induction f as [|f IH]; intros n acc w Hf Hw.
  - assert (Hn : (n / 10 = 0)%N) by (apply N.div_small; simpl in Hf; lia).
    rewrite decimal_digits_S, Hn. simpl.
    exists (String (digit_char (n mod 10)) EmptyString). simpl.
    rewrite is_digit_digit_char by (apply N.mod_lt; lia).
    repeat split; try lia.
    intros Hlow. destruct w as [|w]; [done|].
    rewrite Nat2N.inj_succ, N.pow_succ_r' in Hlow.
    assert (1 <= 10 ^ N.of_nat w)%N
      by (pose proof (N.pow_nonzero 10 (N.of_nat w)); lia).
    simpl in Hf. lia.
  - rewrite decimal_digits_S.
    destruct (n / 10 =? 0)%N eqn:E.
    + apply N.eqb_eq in E.
      exists (String (digit_char (n mod 10)) EmptyString). simpl.
      rewrite is_digit_digit_char by (apply N.mod_lt; lia).
      repeat split; try lia.
      intros Hlow. destruct w as [|w]; [done|].
      rewrite Nat2N.inj_succ, N.pow_succ_r' in Hlow.
      assert (1 <= 10 ^ N.of_nat w)%N
        by (pose proof (N.pow_nonzero 10 (N.of_nat w)); lia).
      assert (n < 10)%N; [|lia].
      destruct (N.lt_ge_cases n 10) as [|Hge]; [done|].
      pose proof (N.div_le_lower_bound n 10 1 ltac:(lia) ltac:(lia)). lia.
    + apply N.eqb_neq in E.
      assert (Hn10 : (10 <= n)%N).
      { destruct (N.lt_ge_cases n 10) as [Hlt|]; [|done].
        apply N.div_small in Hlt. lia. }
      destruct w as [|w]; [simpl in Hw; lia|].
      assert (Hf' : (n / 10 < 2 ^ N.of_nat (S f))%N).
      { apply N.Div0.div_lt_upper_bound.
        rewrite (Nat2N.inj_succ (S f)), N.pow_succ_r' in Hf. lia. }
      assert (Hw' : (n / 10 < 10 ^ N.of_nat (S w))%N).
      { apply N.Div0.div_lt_upper_bound.
        rewrite (Nat2N.inj_succ (S w)), N.pow_succ_r' in Hw. lia. }
      destruct (IH (n / 10)%N (String (digit_char (n mod 10)) acc) w Hf' Hw')
        as (d & Hd & Hall & Hlen & Hlow).
      exists (d ++ String (digit_char (n mod 10)) EmptyString)%string.
      rewrite Hd, append_assoc. simpl.
      assert (Hall' : forall a b, all_digits a = true -> all_digits b = true ->
                             all_digits (a ++ b) = true).
      { clear. induction a as [|c a IHa]; simpl; intros b Ha Hb; [done|].
        apply andb_prop in Ha as [-> Ha]. simpl. by apply IHa. }
      repeat split.
      * apply Hall'; [done|]. simpl.
        by rewrite is_digit_digit_char by (apply N.mod_lt; lia).
      * rewrite length_append. simpl. lia.
      * rewrite length_append. simpl. lia.
      * intros Hl. rewrite length_append. simpl.
        rewrite Hlow; [lia|].
        apply N.div_le_lower_bound; [lia|].
        rewrite (Nat2N.inj_succ w), N.pow_succ_r' in Hl. lia.
Qed.

Lemma str_of_N_shape (n : N) (w : nat) :
  (n < 10 ^ N.of_nat (S w))%N ->
  all_digits (str_of_N n) = true /\
  1 <= String.length (str_of_N n) <= S w /\
  ((10 ^ N.of_nat w <= n)%N -> String.length (str_of_N n) = S w).
Proof.
  intros Hw. unfold str_of_N.
  assert (Hf : (n < 2 ^ N.of_nat (S (N.to_nat (N.log2 n))))%N).
  { rewrite Nat2N.inj_succ, N2Nat.id.
    destruct (N.eq_dec n 0%N) as [->|Hn]; [done|].
    apply N.log2_spec. lia. }
  destruct (decimal_digits_shape _ n EmptyString w Hf Hw)
    as (d & -> & Hall & Hlen & Hlow).
  by rewrite append_empty_r.
Qed.

Lemma matches_app (p1 p2 : list pat) (s1 s2 : string) :
  matches p1 s1 = true -> matches p2 s2 = true ->
  matches (p1 ++ p2) (s1 ++ s2)%string = true.
Proof.
  revert s1. induction p1 as [|[|l] p1 IH]; intros [|c s1]; simpl; try done.
  - intros [-> H]%andb_prop ?. simpl. by apply IH.
  - intros [-> H]%andb_prop ?. simpl. by apply IH.
Qed.

Lemma matches_all_digits (s : string) :
  all_digits s = true -> matches (digits (String.length s)) s = true.
Proof.
  induction s as [|c s IH]; simpl; [done|].
  intros [-> H]%andb_prop. simpl. by apply IH.
Qed.

Lemma matches_zfill (w : nat) (s : string) :
  all_digits s = true -> String.length s <= w ->
  matches (digits w) (zfill w s) = true.
Proof.
  intros Hall Hlen. unfold zfill.
  replace w with ((w - String.length s) + String.length s) at 1 by lia.
  unfold digits. rewrite replicate_add.
  apply matches_app; [|by apply matches_all_digits].
  generalize (w - String.length s). clear.
  induction n as [|n IH]; simpl; [done|]. exact IH.
Qed.

(** A field below [10 ^ w], zero-filled to [w] places, is [w] digits. *)
Lemma matches_field (w : nat) (n : N) :
  (n < 10 ^ N.of_nat (S w))%N ->
  matches (digits (S w)) (zfill (S w) (str_of_N n)) = true.
Proof.
  intros H. destruct (str_of_N_shape n w H) as (Hall & Hlen & _).
  apply matches_zfill; [done | lia].
Qed.

Lemma matches_year (n : N) :
  (1000 <= n)%N -> (n <= 9999)%N ->
  matches (digits 4) (str_of_N n) = true.
Proof.
  intros Hlo Hhi.
  destruct (str_of_N_shape n 3) as (Hall & _ & Hlen); [simpl; lia|].
  rewrite <- Hlen by (simpl; lia). by apply matches_all_digits.
Qed.

Lemma strftime_is_timestamp (dt : datetime) :
  wf_datetime dt = true ->
  is_timestamp (strftime DATE_FORMAT dt) = true.
Proof.
  unfold wf_datetime. rewrite !andb_true_iff, !N.leb_le.
  intros [[[[[[[[[Y1 Y2] M1] M2] D1] D2] H2] Mi2] S2] U2].
  change (strftime DATE_FORMAT dt) with
    (str_of_N (year dt) ++ "-" ++ zfill 2 (str_of_N (month dt)) ++ "-"
     ++ zfill 2 (str_of_N (day dt)) ++ " "
     ++ zfill 2 (str_of_N (hour dt)) ++ ":"
     ++ zfill 2 (str_of_N (minute dt)) ++ ":"
     ++ zfill 2 (str_of_N (second dt)) ++ "."
     ++ zfill 6 (str_of_N (microsecond dt)) ++ "")%string.
  change (is_timestamp ?s) with
    (matches (digits 4 ++ [Lit "-"] ++ digits 2 ++ [Lit "-"] ++ digits 2
              ++ [Lit " "] ++ digits 2 ++ [Lit ":"] ++ digits 2
              ++ [Lit ":"] ++ digits 2 ++ [Lit "."] ++ digits 6 ++ []) s).
  repeat first
    [ apply matches_app
    | apply matches_year; assumption
    | apply matches_field; simpl; lia
    | reflexivity ].
Qed.

End FmtFacts.

(** * Facts about UTF-8 *)

Lemma utf8_decode_cons (errors : Py.errors_mode) (b1 : byte) (r1 : list byte) :
  Py.utf8_decode errors (b1 :: r1) =
  let c1 := Byte.to_N b1 in
  if (c1 <? 128)%N then (fun l => b1 :: l) <$> Py.utf8_decode errors r1
  else if (c1 <? 194)%N then Py.on_error errors (Py.utf8_decode errors r1)
  else if (c1 <? 224)%N then
    match r1 with
    | [] => Py.on_error errors (Some [])
    | b2 :: r2 =>
        if Py.is_continuation b2
        then (fun l => b1 :: b2 :: l) <$> Py.utf8_decode errors r2
        else Py.on_error errors (Py.utf8_decode errors r1)
    end
  else if (c1 <? 240)%N then
    match r1 with
    | [] => Py.on_error errors (Some [])
    | b2 :: r2 =>
        if Py.second_of_three_ok c1 b2 then
          match r2 with
          | [] => Py.on_error errors (Some [])
          | b3 :: r3 =>
              if Py.is_continuation b3
              then (fun l => b1 :: b2 :: b3 :: l) <$> Py.utf8_decode errors r3
              else Py.on_error errors (Py.utf8_decode errors r2)
          end
        else Py.on_error errors (Py.utf8_decode errors r1)
    end
  else if (c1 <? 245)%N then
    match r1 with
    | [] => Py.on_error errors (Some [])
    | b2 :: r2 =>
        if Py.second_of_four_ok c1 b2 then
          match r2 with
          | [] => Py.on_error errors (Some [])
          | b3 :: r3 =>
              if Py.is_continuation b3 then
                match r3 with
                | [] => Py.on_error errors (Some [])
                | b4 :: r4 =>
                    if Py.is_continuation b4
                    then (fun l => b1 :: b2 :: b3 :: b4 :: l)
                           <$> Py.utf8_decode errors r4
                    else Py.on_error errors (Py.utf8_decode errors r3)
                end
              else Py.on_error errors (Py.utf8_decode errors r2)
          end
        else Py.on_error errors (Py.utf8_decode errors r1)
    end
  else Py.on_error errors (Py.utf8_decode errors r1).
Proof. reflexivity. Qed.

(** Strict decoding returns the bytes it was given: text is held as its
    encoding. *)
Lemma utf8_strict_same (n : nat) :
  forall bs out, length bs <= n ->
    Py.utf8_decode Py.Strict bs = Some out -> out = bs.
Proof.
  induction n as [|n IH]; intros bs out Hlen H.
  - destruct bs; simpl in *; [by simplify_eq | lia].
  - destruct bs as [|b1 r1]; [by simpl in H; simplify_eq|].
    rewrite utf8_decode_cons in H. cbv zeta in H.
    repeat case_match; simpl in *; try discriminate;
      apply fmap_Some in H as (tl & Htl & ->);
      (apply IH in Htl; [by subst | lia]).
Qed.

Lemma decode_encode (data : list byte) (text : string) :
  Py.decode data = Ok text -> Py.encode text = data.
Proof.
  unfold Py.decode, Py.encode. destruct (Py.utf8_decode _ _) as [bs|] eqn:E; [|done].
  intros [= <-]. rewrite list_byte_of_string_of_list_byte.
  by eapply utf8_strict_same.
Qed.

(** * Facts about the listener *)

Lemma messages_save (now : datetime) (st : store_status) (data : list byte)
    (w : world) :
  messages (save_message_from_udp_data now st data w) =
  match save_message_try now st data (messages w) with
  | Ok coll => coll
  | Raise _ => messages w
  end.
Proof.
  unfold save_message_from_udp_data.
  destruct (save_message_try now st data (messages w)) as [coll|e]; [done|].
  by destruct (isinstance_ValueError e), (isinstance_ConnectionFailure e).
Qed.

(** A value error in the [try] leaves the collection alone and logs. *)
Lemma save_parsing_error (now : datetime) (st : store_status)
    (data : list byte) (w : world) (e : exn) :
  parse_message now data = Raise e ->
  isinstance_ValueError e = true ->
  save_message_from_udp_data now st data w =
  {| messages := messages w; log := log w ++ [parsing_error e] |}.
Proof.
  intros Hp He. unfold save_message_from_udp_data, save_message_try.
  by rewrite Hp; simpl; rewrite He.
Qed.

Lemma save_stored (now : datetime) (data : list byte) (w : world)
    (doc : gmap string string) :
  parse_message now data = Ok doc ->
  save_message_from_udp_data now Accepting data w =
  {| messages := messages w ++ [doc]; log := log w |}.
Proof.
  intros Hp. unfold save_message_from_udp_data, save_message_try.
  by rewrite Hp.
Qed.

(** Each datagram adds nothing, or one document stamped with the clock. *)
Lemma save_adds_dated (now : datetime) (st : store_status)
    (data : list byte) (w : world) :
  messages (save_message_from_udp_data now st data w) = messages w \/
  exists fields,
    messages (save_message_from_udp_data now st data w) =
    messages w ++ [<["date" := Fmt.strftime DATE_FORMAT now]> fields].
Proof.
  rewrite messages_save. unfold save_message_try, parse_message.
  destruct (Py.decode data) as [text|e]; simpl; [|by left].
  destruct (dict_comprehension _ _) as [fields|e]; simpl; [|by left].
  destruct st; simpl; eauto.
Qed.

(** The collection after a run depends on the collection before it, not on
    the log. *)
Lemma messages_run_socket_server (arrivals : list arrival) :
  forall w1 w2, messages w1 = messages w2 ->
    messages (run_socket_server arrivals w1)
    = messages (run_socket_server arrivals w2).
Proof.
  induction arrivals as [|a rest IH]; intros w1 w2 H; simpl; [done|].
  apply IH. rewrite !messages_save. simpl. by rewrite H.
Qed.

Lemma run_socket_server_app (l1 l2 : list arrival) (w : world) :
  run_socket_server (l1 ++ l2) w
  = run_socket_server l2 (run_socket_server l1 w).
Proof. revert w. induction l1 as [|a l1 IH]; intros w; simpl; [done|]. apply IH. Qed.

(** * The decoder and the store *)

Lemma plain_spec (s : string) :
  plain s = true ->
  Py.contains "=" s = false /\ Py.contains "&" s = false.
Proof.
  unfold plain. intros [H1 H2]%andb_prop.
  by apply negb_true_iff in H1, H2.
Qed.

(** The two pairs of [k1=v1&k2=v2]. *)
Lemma split_two_fields (k1 v1 k2 v2 : string) :
  plain k1 = true -> plain v1 = true -> plain k2 = true -> plain v2 = true ->
  map (Py.split "=")
      (Py.split "&" (k1 ++ "=" ++ v1 ++ "&" ++ k2 ++ "=" ++ v2)%string)
  = [[k1; v1]; [k2; v2]].
Proof.
  intros [E1 A1]%plain_spec [E2 A2]%plain_spec
         [E3 A3]%plain_spec [E4 A4]%plain_spec.
  replace (k1 ++ "=" ++ v1 ++ "&" ++ k2 ++ "=" ++ v2)%string
    with ((k1 ++ "=" ++ v1) ++ String "&" (k2 ++ "=" ++ v2))%string
    by (rewrite !append_assoc; reflexivity).
  rewrite split_app_sep, split_no_sep.
  - simpl. change (?k ++ "=" ++ ?v)%string with (k ++ String "=" v)%string.
    by rewrite !split_app_sep, !split_no_sep.
  - change (k2 ++ "=" ++ v2)%string with (k2 ++ String "=" v2)%string.
    rewrite contains_append. simpl. by rewrite A3, A4.
  - change (k1 ++ "=" ++ v1)%string with (k1 ++ String "=" v1)%string.
    rewrite contains_append. simpl. by rewrite A1, A2.
Qed.

(** C1, as amended.  When the URL-unescaped text of the datagram has the
    shape [k1=v1&k2=v2], with no [=] and no [&] in the unescaped keys and
    values, and the store accepts the insert, exactly one document is
    added: the mapping that assigns [k1: v1], then [k2: v2], then [date],
    where the date has the shape [YYYY-MM-DD HH:MM:SS.ffffff]. *)
Theorem round_trip_two_fields (now : datetime) (data : list byte)
    (text k1 v1 k2 v2 : string) (w : world) :
  Py.decode data = Ok text ->
  Py.unquote_plus text = (k1 ++ "=" ++ v1 ++ "&" ++ k2 ++ "=" ++ v2)%string ->
  plain k1 = true -> plain v1 = true -> plain k2 = true -> plain v2 = true ->
  wf_datetime now = true ->
  exists date,
    Fmt.is_timestamp date = true /\
    save_message_from_udp_data now Accepting data w =
    {| messages := messages w
                   ++ [<["date" := date]> (<[k2 := v2]> (<[k1 := v1]> ∅))];
       log := log w |}.
Proof.
  intros Hdec Htext P1 P2 P3 P4 Hnow.
  exists (Fmt.strftime DATE_FORMAT now). split.
  - by apply FmtFacts.strftime_is_timestamp.
  - apply save_stored. unfold parse_message. rewrite Hdec. simpl.
    by rewrite Htext, split_two_fields.
Qed.

Lemma round_trip_two_fields_witness :
  exists date,
    Fmt.is_timestamp date = true /\
    save_message_from_udp_data Reference.noon Accepting
      (list_byte_of_string "name=Alice+B&msg=Hi%21") Reference.empty_world =
    {| messages := [<["date" := date]>
                      (<["msg" := "Hi!"]> (<["name" := "Alice B"]> ∅))];
       log := [] |}.
Proof.
  apply (round_trip_two_fields Reference.noon
           (list_byte_of_string "name=Alice+B&msg=Hi%21")
           "name=Alice+B&msg=Hi%21" "name" "Alice B" "msg" "Hi!"
           Reference.empty_world); reflexivity.
Defined.

(** C1, as stated, fails: the value [b%3Dc] has no [=] and no [&] and is
    URL-decodable, yet the payload [a=b%3Dc&d=e] unescapes to [a=b=c&d=e]
    and nothing is stored. *)
Lemma round_trip_escaped_equals_stores_nothing :
  plain "a" && plain "b%3Dc" && plain "d" && plain "e" = true /\
  Py.decode (list_byte_of_string "a=b%3Dc&d=e") = Ok "a=b%3Dc&d=e" /\
  Py.unquote_plus "a=b%3Dc&d=e" = "a=b=c&d=e" /\
  save_message_from_udp_data Reference.noon Accepting
    (list_byte_of_string "a=b%3Dc&d=e") Reference.empty_world =
  {| messages := [];
     log := [parsing_error (ValueError "too many values to unpack (expected 2)")] |}.
Proof. repeat split. Qed.

(** A payload without escapes is stored as it is written. *)
Lemma round_trip_unescaped_payload (now : datetime) (k1 v1 k2 v2 : string)
    (w : world) :
  let payload := (k1 ++ "=" ++ v1 ++ "&" ++ k2 ++ "=" ++ v2)%string in
  Py.decode (list_byte_of_string payload) = Ok payload ->
  Py.contains "+" payload = false -> Py.contains "%" payload = false ->
  plain k1 = true -> plain v1 = true -> plain k2 = true -> plain v2 = true ->
  save_message_from_udp_data now Accepting (list_byte_of_string payload) w =
  {| messages := messages w
                 ++ [<["date" := Fmt.strftime DATE_FORMAT now]>
                       (<[k2 := v2]> (<[k1 := v1]> ∅))];
     log := log w |}.
Proof.
  intros payload Hdec Hplus Hpct P1 P2 P3 P4.
  apply save_stored. unfold parse_message. rewrite Hdec. simpl.
  rewrite (unquote_plus_plain _ Hplus Hpct). subst payload.
  by rewrite split_two_fields.
Qed.

(** Where every pair has exactly one [=], the decode succeeds and agrees
    with a split on the first [=]. *)
Lemma parse_message_one_equals (now : datetime) (data : list byte)
    (text : string) :
  Py.decode data = Ok text ->
  forallb (fun el => Nat.eqb (count "=" el) 1)
          (Py.split "&" (Py.unquote_plus text)) = true ->
  parse_message now data = Worded.parse_message now data /\
  exists doc, parse_message now data = Ok doc.
Proof.
  intros Hdec Hall. unfold parse_message, Worded.parse_message.
  rewrite Hdec. simpl.
  set (pairs := Py.split "&" (Py.unquote_plus text)) in *.
  assert (Hone : Forall (fun el => count "=" el = 1) pairs).
  { apply Forall_forall. intros el Hel.
    rewrite forallb_forall in Hall. apply Nat.eqb_eq, Hall.
    by apply list_elem_of_In. }
  rewrite dict_comprehension_worded by done. split; [done|].
  rewrite <- dict_comprehension_worded by done.
  destruct (dict_comprehension_returns (map (Py.split "=") pairs) ∅)
    as [d Hd].
  { apply Forall_map. eapply Forall_impl; [exact Hone|].
    intros el Hel. simpl in *. rewrite length_split. lia. }
  rewrite Hd. simpl. eauto.
Qed.

(** Where some pair has no [=] or more than one, the unpacking raises. *)
Lemma parse_message_other_equals (now : datetime) (data : list byte)
    (text : string) :
  Py.decode data = Ok text ->
  forallb (fun el => Nat.eqb (count "=" el) 1)
          (Py.split "&" (Py.unquote_plus text)) = false ->
  exists msg, parse_message now data = Raise (ValueError msg).
Proof.
  intros Hdec Hall. unfold parse_message. rewrite Hdec. simpl.
  set (pairs := Py.split "&" (Py.unquote_plus text)) in *.
  destruct (dict_comprehension_raises (map (Py.split "=") pairs) ∅)
    as [msg Hmsg]; [|by rewrite Hmsg; eauto].
  apply Exists_map.
  apply not_Forall_Exists; [intros x; apply _|].
  intros HF. rewrite <- not_true_iff_false in Hall. apply Hall.
  apply forallb_forall. intros el Hel.
  rewrite Forall_forall in HF. apply list_elem_of_In, HF in Hel.
  simpl in Hel. rewrite length_split in Hel. apply Nat.eqb_eq. lia.
Qed.

(** C2, as amended.  The decoder URL-unescapes the payload as text and
    splits it on [&]; each pair is split on every [=] and must give exactly
    two pieces.  Where every pair has exactly one [=] the decode succeeds
    and agrees with a split on the first [=]; otherwise (a pair without
    [=], or one whose value contains [=]) it raises [ValueError] and the
    collection is left as it was.  A payload that is not UTF-8 raises. *)
Theorem parse_message_splits_on_every_equals (now : datetime)
    (data : list byte) :
  match Py.decode data with
  | Raise e => parse_message now data = Raise e
  | Ok text =>
      if forallb (fun el => Nat.eqb (count "=" el) 1)
                 (Py.split "&" (Py.unquote_plus text))
      then parse_message now data = Worded.parse_message now data /\
           exists doc, parse_message now data = Ok doc
      else (exists msg, parse_message now data = Raise (ValueError msg)) /\
           forall st w,
             messages (save_message_from_udp_data now st data w) = messages w
  end.
Proof.
  destruct (Py.decode data) as [text|e] eqn:Hdec.
  - destruct (forallb _ _) eqn:Hall.
    + by apply (parse_message_one_equals now data text).
    + destruct (parse_message_other_equals now data text Hdec Hall)
        as [msg Hmsg].
      split; [eauto|]. intros st w. rewrite messages_save.
      unfold save_message_try. by rewrite Hmsg.
  - unfold parse_message. by rewrite Hdec.
Qed.

(** C2, as stated, fails: the pair [k=a=b] splits into three pieces, the
    unpacking raises and nothing is stored, where a split on the first [=]
    gives key [k] and value [a=b]. *)
Lemma value_with_equals_is_rejected :
  Py.split "=" "k=a=b" = ["k"; "a"; "b"] /\
  Worded.partition_first "=" "k=a=b" = Some ("k", "a=b") /\
  parse_message Reference.noon (list_byte_of_string "k=a=b")
  = Raise (ValueError "too many values to unpack (expected 2)") /\
  save_message_from_udp_data Reference.noon Accepting
    (list_byte_of_string "k=a=b") Reference.empty_world =
  {| messages := [];
     log := [parsing_error (ValueError "too many values to unpack (expected 2)")] |}.
Proof. repeat split. Qed.

(** * The listener loop *)

(** C3, as amended.  When the received bytes (the first 1024 of the
    datagram) are UTF-8 text and a pair of their unescaped text has no
    [=], the whole record is rejected: the collection is unchanged (the well-formed
    pairs are not inserted), a parsing error is logged after the receipt,
    and the loop goes on with the next datagrams, which leave the
    collection as if the bad datagram had never arrived. *)
Theorem malformed_pair_rejects_record (a : arrival) (rest : list arrival)
    (w : world) (text : string) :
  Py.decode (recvfrom Config.BUFFER_SIZE a) = Ok text ->
  existsb (fun el => negb (Py.contains "=" el))
          (Py.split "&" (Py.unquote_plus text)) = true ->
  exists msg,
    run_socket_server [a] w =
    {| messages := messages w;
       log := log w ++ [received (recvfrom Config.BUFFER_SIZE a);
                        parsing_error (ValueError msg)] |} /\
    run_socket_server (a :: rest) w
    = run_socket_server rest (run_socket_server [a] w) /\
    messages (run_socket_server (a :: rest) w)
    = messages (run_socket_server rest w).
Proof.
  intros Hdec Hex.
  assert (Hbad : exists msg,
             parse_message (clock a) (recvfrom Config.BUFFER_SIZE a)
             = Raise (ValueError msg)).
  { unfold parse_message. rewrite Hdec. simpl.
    destruct (dict_comprehension_raises
                (map (Py.split "=") (Py.split "&" (Py.unquote_plus text))) ∅)
      as [msg Hmsg]; [|by rewrite Hmsg; eauto].
    apply Exists_map. apply existsb_exists in Hex as (el & Hin & Hel).
    apply Exists_exists. exists el. split; [by apply list_elem_of_In|].
    simpl. rewrite length_split.
    apply negb_true_iff, count_contains in Hel. lia. }
  destruct Hbad as [msg Hmsg]. exists msg.
  assert (Hone : run_socket_server [a] w =
    {| messages := messages w;
       log := log w ++ [received (recvfrom Config.BUFFER_SIZE a);
                        parsing_error (ValueError msg)] |}).
  { simpl. rewrite (save_parsing_error _ _ _ _ _ Hmsg) by done.
    simpl. by rewrite <- app_assoc. }
  split; [done|]. split.
  - apply (run_socket_server_app [a] rest).
  - change (a :: rest) with ([a] ++ rest).
    rewrite run_socket_server_app.
    apply messages_run_socket_server. by rewrite Hone.
Qed.

Lemma malformed_pair_rejects_record_witness :
  exists msg,
    run_socket_server
      [{| datagram := list_byte_of_string "novalue&k=v";
          clock := Reference.noon; store := Accepting |}]
      Reference.empty_world =
    {| messages := [];
       log := [received (list_byte_of_string "novalue&k=v");
               parsing_error (ValueError msg)] |} /\
    run_socket_server
      [{| datagram := list_byte_of_string "novalue&k=v";
          clock := Reference.noon; store := Accepting |};
       {| datagram := list_byte_of_string "k=v";
          clock := Reference.noon; store := Accepting |}]
      Reference.empty_world
    = run_socket_server
        [{| datagram := list_byte_of_string "k=v";
            clock := Reference.noon; store := Accepting |}]
        (run_socket_server
           [{| datagram := list_byte_of_string "novalue&k=v";
               clock := Reference.noon; store := Accepting |}]
           Reference.empty_world) /\
    messages
      (run_socket_server
         [{| datagram := list_byte_of_string "novalue&k=v";
             clock := Reference.noon; store := Accepting |};
          {| datagram := list_byte_of_string "k=v";
             clock := Reference.noon; store := Accepting |}]
         Reference.empty_world)
    = messages
        (run_socket_server
           [{| datagram := list_byte_of_string "k=v";
               clock := Reference.noon; store := Accepting |}]
           Reference.empty_world).
Proof.
  apply (malformed_pair_rejects_record
           {| datagram := list_byte_of_string "novalue&k=v";
              clock := Reference.noon; store := Accepting |}
           [{| datagram := list_byte_of_string "k=v";
               clock := Reference.noon; store := Accepting |}]
           Reference.empty_world "novalue&k=v"); reflexivity.
Defined.

(** C3, as stated, fails: the first of the [&]-separated pairs of the
    payload [novalue%3Dx&k=v] has no [=], yet the unescaped text is
    [novalue=x&k=v], which parses, and the record is stored. *)
Lemma escaped_equals_pair_is_stored :
  Py.split "&" "novalue%3Dx&k=v" = ["novalue%3Dx"; "k=v"] /\
  Py.contains "=" "novalue%3Dx" = false /\
  run_socket_server
    [{| datagram := list_byte_of_string "novalue%3Dx&k=v";
        clock := Reference.noon; store := Accepting |}]
    Reference.empty_world =
  {| messages := [<["date" := "2024-03-09 12:00:05.001234"]>
                    (<["k" := "v"]> (<["novalue" := "x"]> ∅))];
     log := [received (list_byte_of_string "novalue%3Dx&k=v")] |}.
Proof. repeat split. Qed.

(** The loop adds the documents of the datagrams that parse and that the
    store takes. *)
Lemma messages_of_loop (arrivals : list arrival) (w : world) :
  messages (run_socket_server arrivals w)
  = messages w ++ omap stored_document arrivals.
Proof.
  revert w. induction arrivals as [|a rest IH]; intros w; simpl.
  - by rewrite app_nil_r.
  - rewrite IH, messages_save. unfold stored_document, save_message_try.
    destruct (parse_message _ _) as [doc|e]; simpl;
      [|by destruct (store a)].
    destruct (store a); simpl; [|done..]. by rewrite <- app_assoc.
Qed.

(** The document of a datagram is what the client sent with [date] set
    to the stamp of the clock. *)
Lemma parse_message_stamps (now : datetime) (data : list byte)
    (text : string) (fields : gmap string string) :
  Py.decode data = Ok text ->
  dict_comprehension
    (map (Py.split "=") (Py.split "&" (Py.unquote_plus text))) ∅
  = Ok fields ->
  parse_message now data
  = Ok (<["date" := Fmt.strftime DATE_FORMAT now]> fields).
Proof.
  intros Hdec Hfields. unfold parse_message. rewrite Hdec. simpl.
  by rewrite Hfields.
Qed.

Lemma stored_document_dated (a : arrival) (doc : gmap string string) :
  wf_datetime (clock a) = true ->
  stored_document a = Some doc -> dated doc.
Proof.
  intros Hclk. unfold stored_document, parse_message.
  destruct (store a); [|done..].
  destruct (Py.decode _) as [text|e]; simpl; [|done].
  destruct (dict_comprehension _ _) as [fields|e]; simpl; [|done].
  intros [= <-]. eexists. split; [apply lookup_insert_eq|].
  by apply FmtFacts.strftime_is_timestamp.
Qed.

(** C4.  The collection after the loop is the collection before it and
    the documents of the datagrams that parse and that the store takes.
    For each datagram that decodes (its received bytes are text and every
    pair unpacks), the document is the mapping of the client's fields
    with [date] set to the stamp of the clock at which that datagram is
    handled, whatever [date] the client sent; when the store takes it,
    that document is in the collection.  With clocks in range the stamp
    has the fixed shape, so a collection of dated documents stays one. *)
Theorem every_record_is_dated (arrivals : list arrival) (w : world) :
  forallb (fun a => wf_datetime (clock a)) arrivals = true ->
  Forall dated (messages w) ->
  messages (run_socket_server arrivals w)
  = messages w ++ omap stored_document arrivals /\
  Forall dated (messages (run_socket_server arrivals w)) /\
  forall a text fields,
    a ∈ arrivals ->
    Py.decode (recvfrom Config.BUFFER_SIZE a) = Ok text ->
    dict_comprehension
      (map (Py.split "=") (Py.split "&" (Py.unquote_plus text))) ∅
    = Ok fields ->
    Fmt.is_timestamp (Fmt.strftime DATE_FORMAT (clock a)) = true /\
    parse_message (clock a) (recvfrom Config.BUFFER_SIZE a)
    = Ok (<["date" := Fmt.strftime DATE_FORMAT (clock a)]> fields) /\
    (store a = Accepting ->
     <["date" := Fmt.strftime DATE_FORMAT (clock a)]> fields
     ∈ messages (run_socket_server arrivals w)).
Proof.
  intros Hclk Hw.
  assert (Hwf : forall a, a ∈ arrivals -> wf_datetime (clock a) = true).
  { intros a Ha. rewrite forallb_forall in Hclk.
    by apply Hclk, list_elem_of_In. }
  split; [apply messages_of_loop|]. split.
  - rewrite messages_of_loop. apply Forall_app. split; [done|].
    apply Forall_forall. intros doc Hdoc.
    apply list_elem_of_omap in Hdoc as (a & Ha & Hdoc).
    by apply (stored_document_dated a); [apply Hwf|].
  - intros a text fields Ha Hdec Hfields.
    pose proof (parse_message_stamps (clock a) _ _ _ Hdec Hfields) as Hp.
    split; [by apply FmtFacts.strftime_is_timestamp, Hwf|].
    split; [done|].
    intros Hst. rewrite messages_of_loop. apply elem_of_app. right.
    apply list_elem_of_omap. exists a. split; [done|].
    unfold stored_document. by rewrite Hst, Hp.
Qed.

Lemma every_record_is_dated_witness :
  messages
    (run_socket_server
       [{| datagram := list_byte_of_string "date=1999&k=v";
           clock := Reference.noon; store := Accepting |}]
       Reference.empty_world)
  = messages Reference.empty_world
    ++ omap stored_document
         [{| datagram := list_byte_of_string "date=1999&k=v";
             clock := Reference.noon; store := Accepting |}] /\
  Forall dated
    (messages
       (run_socket_server
          [{| datagram := list_byte_of_string "date=1999&k=v";
              clock := Reference.noon; store := Accepting |}]
          Reference.empty_world)) /\
  forall a text fields,
    a ∈ [{| datagram := list_byte_of_string "date=1999&k=v";
            clock := Reference.noon; store := Accepting |}] ->
    Py.decode (recvfrom Config.BUFFER_SIZE a) = Ok text ->
    dict_comprehension
      (map (Py.split "=") (Py.split "&" (Py.unquote_plus text))) ∅
    = Ok fields ->
    Fmt.is_timestamp (Fmt.strftime DATE_FORMAT (clock a)) = true /\
    parse_message (clock a) (recvfrom Config.BUFFER_SIZE a)
    = Ok (<["date" := Fmt.strftime DATE_FORMAT (clock a)]> fields) /\
    (store a = Accepting ->
     <["date" := Fmt.strftime DATE_FORMAT (clock a)]> fields
     ∈ messages
         (run_socket_server
            [{| datagram := list_byte_of_string "date=1999&k=v";
                clock := Reference.noon; store := Accepting |}]
            Reference.empty_world)).
Proof.
  apply (every_record_is_dated
           [{| datagram := list_byte_of_string "date=1999&k=v";
               clock := Reference.noon; store := Accepting |}]
           Reference.empty_world); [reflexivity | apply Forall_nil_2].
Defined.

(** The client's [date] is the one that is lost. *)
Example client_date_is_overwritten :
  messages
    (run_socket_server
       [{| datagram := list_byte_of_string "date=1999&k=v";
           clock := Reference.noon; store := Accepting |}]
       Reference.empty_world)
  = [<["date" := "2024-03-09 12:00:05.001234"]> (<["k" := "v"]> ∅)].
Proof. reflexivity. Qed.

(** C8, as amended.  When every pair has exactly one [=], the decode
    succeeds without an error and one document is added; a key other than
    [date] that occurs several times is mapped to the value of its last
    occurrence, whatever the text of the key and of the value. *)
Theorem duplicate_keys_last_write_wins (now : datetime) (data : list byte)
    (text : string) (before after : list string) (k v : string) (w : world) :
  Py.decode data = Ok text ->
  Py.split "&" (Py.unquote_plus text)
  = before ++ (k ++ "=" ++ v)%string :: after ->
  forallb (fun el => Nat.eqb (count "=" el) 1)
          (Py.split "&" (Py.unquote_plus text)) = true ->
  forallb (fun el => negb (String.eqb (key_of el) k)) after = true ->
  k <> "date" ->
  exists doc,
    save_message_from_udp_data now Accepting data w =
    {| messages := messages w ++ [doc]; log := log w |} /\
    doc !! k = Some v.
Proof.
  intros Hdec Hsplit Hall Hafter Hk.
  destruct (parse_message_one_equals now data text Hdec Hall)
    as [_ [doc Hdoc]].
  exists doc. split; [by apply save_stored|].
  unfold parse_message in Hdoc. rewrite Hdec in Hdoc. simpl in Hdoc.
  destruct (dict_comprehension _ _) as [fields|e] eqn:Hfields; [|done].
  simpl in Hdoc. injection Hdoc as <-.
  rewrite lookup_insert_ne by done.
  rewrite Hsplit in Hall, Hfields.
  rewrite forallb_app in Hall. apply andb_prop in Hall as [_ Hel].
  simpl in Hel. apply andb_prop in Hel as [Hel _].
  apply Nat.eqb_eq in Hel.
  change (k ++ "=" ++ v)%string with (k ++ String "=" v)%string in *.
  rewrite count_append in Hel. simpl in Hel.
  assert (Hkc : Py.contains "=" k = false) by (apply count_contains; lia).
  assert (Hvc : Py.contains "=" v = false) by (apply count_contains; lia).
  rewrite map_app in Hfields. simpl in Hfields.
  rewrite (split_app_sep _ _ _ Hkc), (split_no_sep _ _ Hvc) in Hfields.
  eapply dict_comprehension_last; [|exact Hfields].
  apply Forall_map, Forall_forall. intros el Hin. simpl.
  rewrite forallb_forall in Hafter.
  apply list_elem_of_In, Hafter, negb_true_iff, String.eqb_neq in Hin.
  unfold key_of in Hin. destruct (Py.split "=" el); simpl in *; congruence.
Qed.

Lemma duplicate_keys_last_write_wins_witness :
  exists doc,
    save_message_from_udp_data Reference.noon Accepting
      (list_byte_of_string "k=1&k=2") Reference.empty_world =
    {| messages := messages Reference.empty_world ++ [doc];
       log := log Reference.empty_world |} /\
    doc !! "k" = Some "2".
Proof.
  apply (duplicate_keys_last_write_wins Reference.noon
           (list_byte_of_string "k=1&k=2") "k=1&k=2" ["k=1"] [] "k" "2"
           Reference.empty_world); [reflexivity .. | discriminate].
Defined.

(** C8, as stated, fails for the key [date]: in [date=1&date=2] the last
    occurrence has the value [2], and the stored document maps [date] to
    the timestamp of the clock. *)
Lemma duplicate_date_key_is_overwritten :
  Py.split "&" (Py.unquote_plus "date=1&date=2") = ["date=1"; "date=2"] /\
  save_message_from_udp_data Reference.noon Accepting
    (list_byte_of_string "date=1&date=2") Reference.empty_world =
  {| messages := [{["date" := "2024-03-09 12:00:05.001234"]}];
     log := [] |} /\
  ({["date" := "2024-03-09 12:00:05.001234"]} : gmap string string)
    !! "date" <> Some "2".
Proof. repeat split. discriminate. Qed.

(** C10.  The empty datagram splits into the single pair [""], which has
    no [=]: the unpacking raises, nothing is inserted, the error is logged
    and the loop goes on with the next datagram. *)
Theorem empty_datagram_is_rejected (now : datetime) (st : store_status)
    (rest : list arrival) (w : world) :
  Py.split "&" (Py.unquote_plus "") = [""] /\
  parse_message now []
  = Raise (ValueError "not enough values to unpack (expected 2, got 1)") /\
  run_socket_server [{| datagram := []; clock := now; store := st |}] w =
  {| messages := messages w;
     log := log w ++ [received [];
                      parsing_error
                        (ValueError
                           "not enough values to unpack (expected 2, got 1)")] |} /\
  run_socket_server
    ({| datagram := []; clock := now; store := st |} :: rest) w
  = run_socket_server rest
      (run_socket_server [{| datagram := []; clock := now; store := st |}] w) /\
  messages (run_socket_server
              ({| datagram := []; clock := now; store := st |} :: rest) w)
  = messages (run_socket_server rest w).
Proof.
  assert (Hone :
    run_socket_server [{| datagram := []; clock := now; store := st |}] w =
    {| messages := messages w;
       log := log w ++ [received [];
                        parsing_error
                          (ValueError
                             "not enough values to unpack (expected 2, got 1)")] |}).
  { simpl. unfold save_message_from_udp_data, logging. simpl.
    by rewrite <- app_assoc. }
  split; [reflexivity|]. split; [reflexivity|]. split; [exact Hone|]. split.
  - apply (run_socket_server_app [_] rest).
  - change (?a :: rest) with ([a] ++ rest).
    rewrite run_socket_server_app.
    apply messages_run_socket_server. by rewrite Hone.
Qed.

(** * The HTTP handler *)

Section HandlerFacts.
Context {lib : PyLib}.
Variable dep : deployment.

Lemma send_html_template (filename : string) (status : Z)
    (content : list byte) :
  disk dep (joinpath (TEMPLATES_DIR dep) filename) = Some (File content) ->
  send_html dep filename status =
  ([SendResponse status; SendHeader "Content-type" "text/html"; EndHeaders;
    WfileWrite content], Ok tt).
Proof. intros H. unfold send_html, open_read. by rewrite H. Qed.

Lemma send_static_file (file : string) (status : Z) (content : list byte) :
  disk dep file = Some (File content) ->
  send_static dep file status =
  ([SendResponse status;
    SendHeader "Content-type" (default "text/plain" (guess_type file));
    EndHeaders; WfileWrite content], Ok tt).
Proof. intros H. unfold send_static, open_read. by rewrite H. Qed.


Lemma statuses_send_html (filename : string) (status : Z) :
  statuses (fst (send_html dep filename status)) = [status].
Proof. unfold send_html. by destruct (open_read dep _). Qed.

Lemma statuses_send_static (file : string) (status : Z) :
  statuses (fst (send_static dep file status)) = [status].
Proof. unfold send_static. by destruct (open_read dep _). Qed.

(** The statuses [do_GET] can send. *)
Lemma statuses_do_GET (req : request) :
  statuses (fst (do_GET dep req)) = [] \/
  statuses (fst (do_GET dep req)) = [200%Z] \/
  statuses (fst (do_GET dep req)) = [404%Z].
Proof.
  unfold do_GET. destruct (urlparse_path (path req)) as [router|e]; simpl.
  - destruct (String.eqb router "/").
    + right; left.
      pose proof (statuses_send_html "index.html" 200) as H.
      by destruct (send_html dep "index.html" 200).
    + destruct (exists_ dep _).
      * right; left.
        pose proof (statuses_send_static
                      (joinpath (BASE_DIR dep) (drop_first router)) 200) as H.
        by destruct (send_static dep _ 200).
      * right; right.
        pose proof (statuses_send_html "error.html" 404) as H.
        by destruct (send_html dep "error.html" 404).
  - by left.
Qed.

(** The statuses [do_POST] can send. *)
Lemma statuses_do_POST (req : request) :
  statuses (fst (do_POST req)) = [] \/
  statuses (fst (do_POST req)) = [302%Z].
Proof.
  unfold do_POST. destruct (content_length req) as [size|e]; simpl; [|by left].
  destruct (read size (rfile req)) as [raw|e]; simpl; [|by left].
  destruct (Py.decode raw) as [data|e]; simpl; [|by left].
  unfold sendto. destruct (_ <? _)%Z; simpl; [by left | by right].
Qed.


(** A path other than [/] that names a regular file: 200, the guessed
    content type (or [text/plain]) and the bytes of the file. *)
Lemma do_GET_regular_file (req : request) (router : string)
    (content : list byte) :
  urlparse_path (path req) = Ok router ->
  String.eqb router "/" = false ->
  disk dep (joinpath (BASE_DIR dep) (drop_first router))
  = Some (File content) ->
  do_GET dep req =
  ([SendResponse 200;
    SendHeader "Content-type"
      (default "text/plain"
         (guess_type (joinpath (BASE_DIR dep) (drop_first router))));
    EndHeaders; WfileWrite content], Ok tt).
Proof.
  intros Hurl Hroot Hfile. unfold do_GET. rewrite Hurl. simpl.
  rewrite Hroot. unfold exists_. rewrite Hfile.
  by rewrite (send_static_file _ _ _ Hfile).
Qed.


(** On the reference library, the path component of [/?q] is [/] for
    every query [q]. *)
Lemma reference_root_with_query (q : string) :
  Reference.urlparse_path ("/?" ++ q) = Ok "/".
Proof.
  unfold Reference.urlparse_path. by rewrite !append_cons, append_empty_l.
Qed.

(** C6.  A GET whose path component is [/] is answered with status 200,
    content type [text/html] and the bytes of the [index.html] template,
    and two such requests are answered alike whatever else their targets
    carry. *)
Theorem do_GET_root_serves_index (req : request) (index : list byte) :
  urlparse_path (path req) = Ok "/" ->
  disk dep (joinpath (TEMPLATES_DIR dep) "index.html") = Some (File index) ->
  do_GET dep req =
  ([SendResponse 200; SendHeader "Content-type" "text/html"; EndHeaders;
    WfileWrite index], Ok tt) /\
  forall req', urlparse_path (path req') = Ok "/" ->
    do_GET dep req' = do_GET dep req.
Proof.
  intros Hurl Hidx.
  assert (Hroot : forall r, urlparse_path (path r) = Ok "/" ->
            do_GET dep r = hbind (hret "/") (fun _ => send_html dep "index.html" 200)).
  { intros r Hr. unfold do_GET. by rewrite Hr. }
  split.
  - rewrite (Hroot _ Hurl). simpl.
    by rewrite (send_html_template _ _ _ Hidx).
  - intros req' Hurl'. by rewrite (Hroot _ Hurl), (Hroot _ Hurl').
Qed.

(** What [sendto] does with a payload that fits in one datagram. *)
Lemma sendto_fits (data : list byte) (host : string) (port : Z) :
  (Z.of_nat (length data) <= MAX_UDP_PAYLOAD)%Z ->
  sendto data host port = emit (SendTo data host port).
Proof.
  intros H. unfold sendto.
  destruct (MAX_UDP_PAYLOAD <? Z.of_nat (length data))%Z eqn:E; [lia|done].
Qed.

Lemma do_POST_sends (req : request) (n : Z) (text : string) :
  content_length req = Ok n ->
  (0 <= n <= MAX_UDP_PAYLOAD)%Z ->
  Py.decode (take (Z.to_nat n) (rfile req)) = Ok text ->
  do_POST req =
  ([SendTo (take (Z.to_nat n) (rfile req))
      Config.SOCKET_HOST Config.SOCKET_PORT;
    SendResponse 302; SendHeader "Location" "/"; EndHeaders], Ok tt).
Proof.
  intros Hsize Hn Hdec. unfold do_POST, read. rewrite Hsize. simpl.
  destruct (n <? -1)%Z eqn:E1; [lia|].
  destruct (n =? -1)%Z eqn:E2; [lia|]. simpl.
  rewrite Hdec. simpl. rewrite (decode_encode _ _ Hdec).
  rewrite sendto_fits; [done|]. rewrite length_take. lia.
Qed.

(** C5, as amended.  Let [n] be 0 when there is no [Content-Length]
    header and the number the header parses to otherwise.  When [n] is
    at least 0 and at most 65507, the largest payload of a UDP datagram,
    and the first [n] bytes of the body are UTF-8 text, the handler sends
    exactly one datagram, holding those same bytes, to the relay target,
    and answers 302 with [Location: /]. *)
Theorem do_POST_relays_text (req : request) (n : Z) (text : string) :
  match headers_get "Content-Length" (headers req) with
  | Some v => int_of_str v = Ok n
  | None => n = 0%Z
  end ->
  (0 <= n <= MAX_UDP_PAYLOAD)%Z ->
  Py.decode (take (Z.to_nat n) (rfile req)) = Ok text ->
  do_POST req =
  ([SendTo (take (Z.to_nat n) (rfile req))
      Config.SOCKET_HOST Config.SOCKET_PORT;
    SendResponse 302; SendHeader "Location" "/"; EndHeaders], Ok tt) /\
  datagrams_to Config.SOCKET_HOST Config.SOCKET_PORT (fst (do_POST req))
  = [take (Z.to_nat n) (rfile req)].
Proof.
  intros Hlen Hn Hdec.
  assert (Hsize : content_length req = Ok n).
  { unfold content_length.
    destruct (headers_get "Content-Length" (headers req)); congruence. }
  rewrite (do_POST_sends req n text Hsize Hn Hdec). by split.
Qed.

(** A body too long for one datagram: [sendto] raises and nothing is
    sent, no datagram and no status. *)
Lemma do_POST_too_long (req : request) (n : Z) (text : string) :
  content_length req = Ok n ->
  (0 <= n)%Z ->
  Py.decode (take (Z.to_nat n) (rfile req)) = Ok text ->
  (MAX_UDP_PAYLOAD < Z.of_nat (length (take (Z.to_nat n) (rfile req))))%Z ->
  do_POST req = ([], Raise (OSError "[Errno 90] Message too long")).
Proof.
  intros Hsize Hn Hdec Hlong. unfold do_POST, read. rewrite Hsize. simpl.
  destruct (n <? -1)%Z eqn:E1; [lia|].
  destruct (n =? -1)%Z eqn:E2; [lia|]. simpl.
  rewrite Hdec. simpl. rewrite (decode_encode _ _ Hdec). unfold sendto.
  destruct (MAX_UDP_PAYLOAD <? _)%Z eqn:E; [done|lia].
Qed.

(** A size that [int] rejects, or a body that is not text, ends the
    handler before anything is sent. *)
Lemma do_POST_bad_length (req : request) (e : exn) :
  content_length req = Raise e -> do_POST req = ([], Raise e).
Proof. intros H. unfold do_POST. by rewrite H. Qed.

Lemma do_POST_bad_body (req : request) (n : Z) (raw : list byte) (e : exn) :
  content_length req = Ok n ->
  read n (rfile req) = Ok raw ->
  Py.decode raw = Raise e ->
  do_POST req = ([], Raise e).
Proof.
  intros Hn Hraw Hdec. unfold do_POST.
  rewrite Hn. simpl. rewrite Hraw. simpl. by rewrite Hdec.
Qed.

(** C9.  Whatever the request, the only statuses the handlers send are
    200 and 404 for a GET and 302 for a POST; and the answer to a form
    submission is the same whatever the state of the store and of the
    listener, so a failed ingest does not show in it. *)
Theorem statuses_are_200_302_404 (req : request) :
  Forall (fun s => s ∈ ALLOWED_STATUSES) (statuses (fst (do_GET dep req))) /\
  Forall (fun s => s ∈ ALLOWED_STATUSES) (statuses (fst (do_POST req))) /\
  forall now st st' w w',
    fst (submit_form req now st w) = fst (submit_form req now st' w') /\
    Forall (fun s => s ∈ ALLOWED_STATUSES)
           (statuses (fst (fst (submit_form req now st w)))).
Proof.
  assert (HP : Forall (fun s => s ∈ ALLOWED_STATUSES)
                 (statuses (fst (do_POST req)))).
  { destruct (statuses_do_POST req) as [-> | ->];
      repeat constructor; unfold ALLOWED_STATUSES; set_solver. }
  split; [|split; [exact HP|]].
  - destruct (statuses_do_GET req) as [-> | [-> | ->]];
      repeat constructor; unfold ALLOWED_STATUSES; set_solver.
  - intros now st st' w w'. split; [done | exact HP].
Qed.

End HandlerFacts.

Lemma do_GET_root_serves_index_witness :
  @do_GET Reference.lib Reference.site (Reference.get "/?name=Alice&x=1") =
  ([SendResponse 200; SendHeader "Content-type" "text/html"; EndHeaders;
    WfileWrite Reference.INDEX_HTML], Ok tt) /\
  forall req', @urlparse_path Reference.lib (path req') = Ok "/" ->
    @do_GET Reference.lib Reference.site req'
    = @do_GET Reference.lib Reference.site
        (Reference.get "/?name=Alice&x=1").
Proof.
  apply (@do_GET_root_serves_index Reference.lib Reference.site
           (Reference.get "/?name=Alice&x=1") Reference.INDEX_HTML);
    reflexivity.
Defined.

Lemma do_POST_relays_text_witness :
  @do_POST Reference.lib
    (Reference.post "/message" (list_byte_of_string "name=Alice&msg=Hi")) =
  ([SendTo (take (Z.to_nat 17) (list_byte_of_string "name=Alice&msg=Hi"))
      Config.SOCKET_HOST Config.SOCKET_PORT;
    SendResponse 302; SendHeader "Location" "/"; EndHeaders], Ok tt) /\
  datagrams_to Config.SOCKET_HOST Config.SOCKET_PORT
    (fst (@do_POST Reference.lib
            (Reference.post "/message"
               (list_byte_of_string "name=Alice&msg=Hi"))))
  = [take (Z.to_nat 17) (list_byte_of_string "name=Alice&msg=Hi")].
Proof.
  apply (@do_POST_relays_text Reference.lib
           (Reference.post "/message" (list_byte_of_string "name=Alice&msg=Hi"))
           17%Z "name=Alice&msg=Hi");
    [reflexivity | unfold MAX_UDP_PAYLOAD; lia | reflexivity].
Defined.

(** C5, as stated, fails: a body that is not UTF-8 makes [decode] raise
    before anything is sent; there is no datagram and no response. *)
Lemma do_POST_invalid_utf8_sends_nothing :
  @content_length Reference.lib (Reference.post "/message" [xff]) = Ok 1%Z /\
  @do_POST Reference.lib (Reference.post "/message" [xff])
  = ([], Raise UnicodeDecodeError).
Proof. split; reflexivity. Qed.

(** C7 at [GET /templates]: the path names a directory of the site, not a
    file; the handler answers 200 with [text/plain], not 404 with the
    error template, and [open] raises before any body is written. *)
Theorem do_GET_templates_directory :
  disk Reference.site
    (joinpath (BASE_DIR Reference.site) (drop_first "/templates"))
  = Some Directory /\
  @do_GET Reference.lib Reference.site (Reference.get "/templates") =
  ([SendResponse 200; SendHeader "Content-type" "text/plain"; EndHeaders],
   Raise IsADirectoryError).
Proof. split; reflexivity. Qed.

(** * More on the decoder, the store and the loop *)

Lemma dict_comprehension_raises_ValueError (items : list (list string))
    (d : gmap string string) (e : exn) :
  dict_comprehension items d = Raise e -> isinstance_ValueError e = true.
Proof.
  revert d. induction items as [|it items IH]; intros d H; simpl in H.
  - discriminate.
  - destruct it as [|k [|v [|x it]]]; simplify_eq/=; eauto.
Qed.

(** The parse can only fail with a [ValueError]. *)
Lemma parse_message_raises_ValueError (now : datetime) (data : list byte)
    (e : exn) :
  parse_message now data = Raise e -> isinstance_ValueError e = true.
Proof.
  unfold parse_message, Py.decode.
  destruct (Py.utf8_decode Py.Strict data) as [bs|]; simpl;
    [|by intros [= <-]].
  destruct (dict_comprehension _ _) as [d|e'] eqn:Hd; simpl; [done|].
  intros [= <-]. by eapply dict_comprehension_raises_ValueError.
Qed.

(** X3.  Which handler of [save_message_from_udp_data] runs is decided
    by the stage that fails.  A datagram that does not parse is logged as
    a data parsing error whatever the state of the store, which is never
    asked; one that parses is inserted when the store takes it, logged
    as a connection failure when the store cannot be reached and as a
    failure to save on any other store error.  In the three failing
    cases the collection stays as it was. *)
Theorem save_message_handlers (now : datetime) (st : store_status)
    (data : list byte) (w : world) :
  save_message_from_udp_data now st data w =
  match parse_message now data with
  | Raise e => logging ERROR "Data parsing error: %s" (ArgExn e) w
  | Ok doc =>
      match st with
      | Accepting => {| messages := messages w ++ [doc]; log := log w |}
      | Unreachable =>
          logging ERROR "Could not connect to MongoDB: %s"
            (ArgExn ConnectionFailure) w
      | Failing =>
          logging ERROR "Failed to save data: %s" (ArgExn OtherStoreError) w
      end
  end.
Proof.
  unfold save_message_from_udp_data, save_message_try.
  destruct (parse_message now data) as [doc|e] eqn:Hp; simpl.
  - by destruct st.
  - by rewrite (parse_message_raises_ValueError _ _ _ Hp).
Qed.

(** One datagram: its document is added and the log is left alone, or
    the collection is left alone and one error is logged. *)
Lemma save_message_one_of (a : arrival) (w : world) :
  let w' := save_message_from_udp_data (clock a) (store a)
              (recvfrom Config.BUFFER_SIZE a) w in
  match stored_document a with
  | Some doc => messages w' = messages w ++ [doc] /\ log w' = log w
  | None => messages w' = messages w /\
            exists r, log w' = log w ++ [r] /\ level r = ERROR
  end.
Proof.
  unfold stored_document, save_message_from_udp_data, save_message_try.
  destruct (parse_message _ _) as [doc|e] eqn:Hp; simpl.
  - destruct (store a); simpl; eauto.
  - rewrite (parse_message_raises_ValueError _ _ _ Hp).
    by destruct (store a); simpl; eauto.
Qed.

(** X1.  The collection after the loop is the collection before it
    followed by the documents of the datagrams that parse and that the
    store takes, in the order of arrival: each datagram adds at most its
    own document, and no document is ever changed or removed. *)
Theorem collection_after_loop (arrivals : list arrival) (w : world) :
  messages (run_socket_server arrivals w)
  = messages w ++ omap stored_document arrivals.
Proof.
  revert w. induction arrivals as [|a rest IH]; intros w; simpl.
  - by rewrite app_nil_r.
  - rewrite IH.
    pose proof (save_message_one_of a
                  (logging INFO "Received data: %s"
                     (ArgBytes (recvfrom Config.BUFFER_SIZE a)) w)) as H.
    simpl in H. destruct (stored_document a) as [doc|].
    + destruct H as [-> _]. simpl. by rewrite <- app_assoc.
    + by destruct H as [-> _].
Qed.

Lemma length_filter_one (P : log_record -> bool) (r : log_record) :
  length (filter (fun r => P r = true) [r]) = if P r then 1 else 0.
Proof.
  rewrite filter_cons, filter_nil.
  case_decide as H; destruct (P r); simpl; congruence.
Qed.

(** X2.  Every datagram is accounted for exactly once: the loop logs one
    receipt for each, and the documents added and the errors logged
    together number as many as the datagrams. *)
Theorem every_datagram_is_stored_or_logged (arrivals : list arrival)
    (w : world) :
  let w' := run_socket_server arrivals w in
  length (filter (fun r => is_info r = true) (log w'))
  = length (filter (fun r => is_info r = true) (log w)) + length arrivals /\
  length (messages w') + length (filter (fun r => is_error r = true) (log w'))
  = length (messages w) + length (filter (fun r => is_error r = true) (log w))
    + length arrivals.
Proof.
  revert w. induction arrivals as [|a rest IH]; intros w; simpl.
  - lia.
  - set (w1 := logging INFO "Received data: %s"
                 (ArgBytes (recvfrom Config.BUFFER_SIZE a)) w).
    pose proof (save_message_one_of a w1) as H. cbv zeta in H.
    destruct (IH (save_message_from_udp_data (clock a) (store a)
                    (recvfrom Config.BUFFER_SIZE a) w1)) as [HI HE].
    rewrite HI, <- Nat.add_assoc, HE. clear IH HI HE.
    assert (Hm1 : messages w1 = messages w) by done.
    assert (Hi1 : length (filter (fun r => is_info r = true) (log w1))
                  = S (length (filter (fun r => is_info r = true) (log w)))).
    { unfold w1. simpl.
      rewrite filter_app, length_app, (length_filter_one is_info).
      simpl. lia. }
    assert (He1 : length (filter (fun r => is_error r = true) (log w1))
                  = length (filter (fun r => is_error r = true) (log w))).
    { unfold w1. simpl.
      rewrite filter_app, length_app, (length_filter_one is_error).
      simpl. lia. }
    destruct (stored_document a) as [doc|].
    + destruct H as [Hm Hl]. rewrite Hm, Hl, length_app, Hi1, He1, Hm1.
      simpl. lia.
    + destruct H as [Hm (r & Hl & Hr)].
      rewrite Hm, Hl, !filter_app, !length_app, Hi1, He1, Hm1.
      assert (Hre : is_error r = true) by (unfold is_error; by rewrite Hr).
      assert (Hri : is_info r = false) by (unfold is_info; by rewrite Hr).
      rewrite (length_filter_one is_info), (length_filter_one is_error),
        Hre, Hri.
      lia.
Qed.

(** X6.  Only the first 1024 bytes of a datagram are used: cutting every
    datagram to the receive buffer before it arrives changes neither the
    collection nor the log. *)
Theorem bytes_beyond_buffer_are_ignored (arrivals : list arrival)
    (w : world) :
  run_socket_server (map truncated arrivals) w
  = run_socket_server arrivals w.
Proof.
  revert w. induction arrivals as [|a rest IH]; intros w; simpl; [done|].
  rewrite IH. unfold recvfrom, truncated. simpl. by rewrite take_take, Nat.min_id.
Qed.

Lemma dom_dict_comprehension (items : list (list string))
    (d d' : gmap string string) :
  dict_comprehension items d = Ok d' ->
  dom d' = dom d ∪ list_to_set (map (hd EmptyString) items).
Proof.
  revert d. induction items as [|it items IH]; intros d H; simpl in H.
  - simplify_eq. simpl. by rewrite (right_id_L ∅ (∪)).
  - destruct it as [|k [|v [|x it]]]; simplify_eq/=.
    rewrite (IH _ H), dom_insert_L.
    by rewrite (comm_L (∪) {[k]} (dom d)), (assoc_L (∪)).
Qed.

(** X4.  The fields of a stored document are [date] and the keys of the
    pairs of the unescaped text, nothing more and nothing less: no key is
    dropped, renamed or checked against a schema. *)
Theorem document_keys (now : datetime) (data : list byte) (text : string)
    (doc : gmap string string) :
  Py.decode data = Ok text ->
  parse_message now data = Ok doc ->
  dom doc
  = {["date"]} ∪ list_to_set (map key_of (Py.split "&" (Py.unquote_plus text))).
Proof.
  intros Hdec Hp. unfold parse_message in Hp. rewrite Hdec in Hp.
  simpl in Hp.
  destruct (dict_comprehension _ _) as [fields|e] eqn:Hf; [|done].
  simpl in Hp. injection Hp as <-.
  rewrite dom_insert_L, (dom_dict_comprehension _ _ _ Hf), dom_empty_L.
  rewrite map_map. unfold key_of. by rewrite (left_id_L ∅ (∪)).
Qed.

Lemma document_keys_witness :
  dom (<["date" := Fmt.strftime DATE_FORMAT Reference.noon]>
         (<["msg" := "Hi!"]> (<["name" := "Alice B"]> (∅ : gmap string string))))
  = {["date"]} ∪ list_to_set
      (map key_of (Py.split "&" (Py.unquote_plus "name=Alice+B&msg=Hi%21"))).
Proof.
  apply (document_keys Reference.noon
           (list_byte_of_string "name=Alice+B&msg=Hi%21")
           "name=Alice+B&msg=Hi%21"); reflexivity.
Defined.

Lemma contains_pair (sep : ascii) (k v : string) :
  Py.contains sep k = false -> Py.contains sep v = false ->
  Ascii.eqb "=" sep = false ->
  Py.contains sep (k ++ "=" ++ v) = false.
Proof.
  intros Hk Hv Hsep.
  change (k ++ "=" ++ v)%string with (k ++ String "=" v)%string.
  rewrite contains_append.
  change (Py.contains sep (String "=" v))
    with (Ascii.eqb "=" sep || Py.contains sep v).
  by rewrite Hk, Hv, Hsep.
Qed.

Lemma split_pair (k v : string) :
  Py.contains "=" k = false -> Py.contains "=" v = false ->
  Py.split "=" (k ++ "=" ++ v) = [k; v].
Proof.
  intros Hk Hv.
  change (k ++ "=" ++ v)%string with (k ++ String "=" v)%string.
  by rewrite split_app_sep, split_no_sep.
Qed.

(** The pieces of a joined form are its fields. *)
Lemma split_join_pairs (kvs : list (string * string)) :
  kvs <> [] ->
  forallb (fun kv => plain (fst kv) && plain (snd kv)) kvs = true ->
  map (Py.split "=") (Py.split "&" (join_pairs kvs))
  = map (fun kv => [fst kv; snd kv]) kvs.
Proof.
  induction kvs as [|[k v] rest IH]; [done|]. intros _ Hall.
  simpl in Hall. apply andb_prop in Hall as [Hkv Hrest].
  apply andb_prop in Hkv as [[Ek Ak]%plain_spec [Ev Av]%plain_spec].
  destruct rest as [|kv2 rest].
  - simpl. rewrite split_no_sep by (by apply contains_pair).
    simpl. by rewrite split_pair.
  - change (join_pairs ((k, v) :: kv2 :: rest))
      with (k ++ "=" ++ v ++ "&" ++ join_pairs (kv2 :: rest))%string.
    replace (k ++ "=" ++ v ++ "&" ++ join_pairs (kv2 :: rest))%string
      with ((k ++ "=" ++ v) ++ String "&" (join_pairs (kv2 :: rest)))%string
      by (rewrite !append_assoc; reflexivity).
    rewrite split_app_sep by (by apply contains_pair).
    cbn [map]. rewrite split_pair by done.
    by rewrite IH.
Qed.

Lemma dict_comprehension_fields (kvs : list (string * string))
    (d : gmap string string) :
  dict_comprehension (map (fun kv => [fst kv; snd kv]) kvs) d
  = Ok (assign_all kvs d).
Proof.
  revert d. induction kvs as [|[k v] rest IH]; intros d; simpl; [done|].
  apply IH.
Qed.

(** X5.  A form of any number of fields survives the decoder: when the
    unescaped text is [k1=v1&...&kn=vn] for at least one field, with no
    [=] and no [&] inside the keys and values, the parse gives the mapping
    that assigns the fields in order (a repeated key keeps its last
    value) and then [date]. *)
Theorem form_fields_round_trip (now : datetime) (data : list byte)
    (text : string) (kvs : list (string * string)) :
  kvs <> [] ->
  forallb (fun kv => plain (fst kv) && plain (snd kv)) kvs = true ->
  Py.decode data = Ok text ->
  Py.unquote_plus text = join_pairs kvs ->
  parse_message now data
  = Ok (<["date" := Fmt.strftime DATE_FORMAT now]> (assign_all kvs ∅)).
Proof.
  intros Hne Hplain Hdec Htext. unfold parse_message.
  rewrite Hdec. simpl.
  by rewrite Htext, split_join_pairs, dict_comprehension_fields.
Qed.

Lemma form_fields_round_trip_witness :
  parse_message Reference.noon
    (list_byte_of_string "name=Alice+B&msg=Hi%21&name=Bob")
  = Ok (<["date" := Fmt.strftime DATE_FORMAT Reference.noon]>
          (assign_all [("name", "Alice B"); ("msg", "Hi!"); ("name", "Bob")]
             ∅)).
Proof.
  apply (form_fields_round_trip Reference.noon
           (list_byte_of_string "name=Alice+B&msg=Hi%21&name=Bob")
           "name=Alice+B&msg=Hi%21&name=Bob"
           [("name", "Alice B"); ("msg", "Hi!"); ("name", "Bob")]);
    [discriminate | reflexivity ..].
Defined.

(** * More on the HTTP handler and on the way to the store *)

Section RelayFacts.
Context {lib : PyLib}.
Variable dep : deployment.

Lemma parse_message_decodes (now : datetime) (data : list byte)
    (doc : gmap string string) :
  parse_message now data = Ok doc -> exists text, Py.decode data = Ok text.
Proof.
  unfold parse_message. destruct (Py.decode data) as [text|e]; [eauto|done].
Qed.

(** X7.  From the browser to the store: when the body of a POST, as far
    as [Content-Length] counts it and at most 1024 bytes long, parses to
    a document and the store takes it, the browser is redirected with 302
    and the collection gains exactly that document; the listener logs
    the receipt of the body and no error. *)
Theorem posted_form_is_stored (req : request) (n : Z)
    (doc : gmap string string) (now : datetime) (w : world) :
  content_length req = Ok n ->
  (0 <= n <= 1024)%Z ->
  parse_message now (take (Z.to_nat n) (rfile req)) = Ok doc ->
  submit_form req now Accepting w =
  (([SendTo (take (Z.to_nat n) (rfile req))
       Config.SOCKET_HOST Config.SOCKET_PORT;
     SendResponse 302; SendHeader "Location" "/"; EndHeaders], Ok tt),
   {| messages := messages w ++ [doc];
      log := log w ++ [received (take (Z.to_nat n) (rfile req))] |}).
Proof.
  intros Hsize Hn Hp.
  destruct (parse_message_decodes _ _ _ Hp) as [text Hdec].
  unfold submit_form.
  rewrite (do_POST_sends req n text) by (done || unfold MAX_UDP_PAYLOAD; lia).
  simpl. f_equal.
  assert (Hcut : recvfrom Config.BUFFER_SIZE
            {| datagram := take (Z.to_nat n) (rfile req);
               clock := now; store := Accepting |}
          = take (Z.to_nat n) (rfile req)).
  { unfold recvfrom. simpl. apply take_ge.
    rewrite length_take. unfold Config.BUFFER_SIZE. lia. }
  rewrite Hcut. by rewrite (save_stored _ _ _ _ Hp).
Qed.

(** X8.  A POST without a [Content-Length] header relays nothing of its
    body: the handler sends an empty datagram and redirects with 302, and
    the listener rejects the empty datagram, so nothing is stored,
    whatever the body and the state of the store. *)
Theorem post_without_length_is_lost (req : request) (now : datetime)
    (st : store_status) (w : world) :
  headers_get "Content-Length" (headers req) = None ->
  submit_form req now st w =
  (([SendTo [] Config.SOCKET_HOST Config.SOCKET_PORT;
     SendResponse 302; SendHeader "Location" "/"; EndHeaders], Ok tt),
   {| messages := messages w;
      log := log w
             ++ [received [];
                 parsing_error
                   (ValueError
                      "not enough values to unpack (expected 2, got 1)")] |}).
Proof.
  intros Habs.
  assert (Hsize : content_length req = Ok 0%Z).
  { unfold content_length. by rewrite Habs. }
  unfold submit_form.
  rewrite (do_POST_sends req 0 "" Hsize)
    by (done || unfold MAX_UDP_PAYLOAD; lia).
  simpl. f_equal. unfold save_message_from_udp_data, logging. simpl.
  by rewrite <- app_assoc.
Qed.

(** X9.  [do_POST] is all or nothing: either it raises before anything
    is sent (no datagram, no status line), or it sends one datagram to
    the relay target followed by the 302 redirect to [/]; and a datagram
    it sends is always valid UTF-8 text. *)
Theorem do_POST_all_or_nothing (req : request) :
  (exists e, do_POST req = ([], Raise e)) \/
  (exists d text,
     Py.decode d = Ok text /\
     do_POST req =
     ([SendTo d Config.SOCKET_HOST Config.SOCKET_PORT;
       SendResponse 302; SendHeader "Location" "/"; EndHeaders], Ok tt)).
Proof.
  unfold do_POST.
  destruct (content_length req) as [size|e]; simpl; [|eauto].
  destruct (read size (rfile req)) as [raw|e]; simpl; [|eauto].
  destruct (Py.decode raw) as [text|e] eqn:Hdec; simpl; [|eauto].
  rewrite (decode_encode _ _ Hdec). unfold sendto.
  destruct (_ <? _)%Z; simpl; [eauto|].
  right. by exists raw, text.
Qed.

(** X10.  Every run of [do_GET] has one of three shapes: it raises
    before anything is sent; it sends a status of 200 or 404, one
    [Content-type] header and the end of the headers, and then raises
    without a body; or it sends those and one body and returns.  It never
    sends a datagram. *)
Theorem do_GET_shapes (req : request) :
  ((exists e, do_GET dep req = ([], Raise e)) \/
   (exists s ct e, (s = 200 \/ s = 404)%Z /\
      do_GET dep req =
      ([SendResponse s; SendHeader "Content-type" ct; EndHeaders], Raise e)) \/
   (exists s ct body, (s = 200 \/ s = 404)%Z /\
      do_GET dep req =
      ([SendResponse s; SendHeader "Content-type" ct; EndHeaders;
        WfileWrite body], Ok tt))) /\
  forall host port, datagrams_to host port (fst (do_GET dep req)) = [].
Proof.
  assert (Hhtml : forall name s,
    (exists e, send_html dep name s =
       ([SendResponse s; SendHeader "Content-type" "text/html"; EndHeaders],
        Raise e)) \/
    (exists body, send_html dep name s =
       ([SendResponse s; SendHeader "Content-type" "text/html"; EndHeaders;
         WfileWrite body], Ok tt))).
  { intros name s. unfold send_html.
    destruct (open_read dep _) as [body|e]; simpl; eauto. }
  assert (Hstatic : forall file s,
    (exists e, send_static dep file s =
       ([SendResponse s;
         SendHeader "Content-type" (default "text/plain" (guess_type file));
         EndHeaders], Raise e)) \/
    (exists body, send_static dep file s =
       ([SendResponse s;
         SendHeader "Content-type" (default "text/plain" (guess_type file));
         EndHeaders; WfileWrite body], Ok tt))).
  { intros file s. unfold send_static.
    destruct (open_read dep _) as [body|e]; simpl; eauto. }
  unfold do_GET.
  destruct (urlparse_path (path req)) as [router|e]; simpl;
    [|split; [eauto | done]].
  destruct (String.eqb router "/").
  - destruct (Hhtml "index.html" 200%Z) as [[e ->] | [body ->]]; simpl;
      (split; [|done]); eauto 10.
  - destruct (exists_ dep _).
    + destruct (Hstatic (joinpath (BASE_DIR dep) (drop_first router)) 200%Z)
        as [[e ->] | [body ->]]; simpl; (split; [|done]); eauto 10.
    + destruct (Hhtml "error.html" 404%Z) as [[e ->] | [body ->]]; simpl;
        (split; [|done]); eauto 10.
Qed.


(** [joinpath] as [pathlib] has it. *)
Example joinpath_relative : joinpath "/app" "static/style.css" = "/app/static/style.css".
Proof. reflexivity. Qed.

Example joinpath_drops_trailing_slash : joinpath "/app" "static/" = "/app/static".
Proof. reflexivity. Qed.

Example joinpath_drops_dots_and_doubled_slashes :
  joinpath "/app" "./a//b/." = "/app/a/b".
Proof. reflexivity. Qed.

Example joinpath_keeps_dotdot : joinpath "/app" "../etc/secret" = "/app/../etc/secret".
Proof. reflexivity. Qed.

Example joinpath_empty : joinpath "/app" "" = "/app".
Proof. reflexivity. Qed.

Example joinpath_from_root : joinpath "/" "a" = "/a".
Proof. reflexivity. Qed.

Example joinpath_from_here : joinpath "." "a" = "a".
Proof. reflexivity. Qed.

Example joinpath_absolute_replaces : joinpath "/app" "/etc//secret" = "/etc/secret".
Proof. reflexivity. Qed.

Example joinpath_two_slashes : joinpath "/app" "//etc/secret" = "//etc/secret".
Proof. reflexivity. Qed.

Example joinpath_three_slashes : joinpath "/app" "///etc/secret" = "/etc/secret".
Proof. reflexivity. Qed.

(** An absolute second path makes the first one irrelevant. *)
Lemma joinpath_absolute (base base' rest : string) :
  joinpath base (String "/" rest) = joinpath base' (String "/" rest).
Proof. reflexivity. Qed.

(** X12.  The path is not confined to [BASE_DIR]: when the path
    component starts with two slashes, what follows the first one is an
    absolute path, [joinpath] drops [BASE_DIR] and returns that path (as
    [pathlib] writes it), and a file that exists there is served with
    status 200, wherever the program is installed. *)
Theorem do_GET_absolute_path (req : request) (rest : string)
    (content : list byte) (anywhere : string) :
  urlparse_path (path req) = Ok (String "/" (String "/" rest)) ->
  disk dep (joinpath anywhere (String "/" rest)) = Some (File content) ->
  do_GET dep req =
  ([SendResponse 200;
    SendHeader "Content-type"
      (default "text/plain"
         (guess_type (joinpath anywhere (String "/" rest))));
    EndHeaders; WfileWrite content], Ok tt).
Proof.
  intros Hurl Hfile.
  rewrite (joinpath_absolute anywhere (BASE_DIR dep)) in *.
  by apply (do_GET_regular_file dep req (String "/" (String "/" rest))).
Qed.

End RelayFacts.

Lemma posted_form_is_stored_witness :
  @submit_form Reference.lib
    (Reference.post "/message" (list_byte_of_string "name=Alice&msg=Hi"))
    Reference.noon Accepting Reference.empty_world =
  (([SendTo (take (Z.to_nat 17) (list_byte_of_string "name=Alice&msg=Hi"))
       Config.SOCKET_HOST Config.SOCKET_PORT;
     SendResponse 302; SendHeader "Location" "/"; EndHeaders], Ok tt),
   {| messages :=
        messages Reference.empty_world
        ++ [<["date" := "2024-03-09 12:00:05.001234"]>
              (<["msg" := "Hi"]> (<["name" := "Alice"]> ∅))];
      log := log Reference.empty_world
             ++ [received (take (Z.to_nat 17)
                             (list_byte_of_string "name=Alice&msg=Hi"))] |}).
Proof.
  apply (@posted_form_is_stored Reference.lib
           (Reference.post "/message"
              (list_byte_of_string "name=Alice&msg=Hi"))
           17%Z); [reflexivity | lia | reflexivity].
Defined.

Lemma post_without_length_is_lost_witness :
  @submit_form Reference.lib
    {| path := "/message"; headers := [("Host", "localhost")];
       rfile := list_byte_of_string "name=Alice&msg=Hi" |}
    Reference.noon Accepting Reference.empty_world =
  (([SendTo [] Config.SOCKET_HOST Config.SOCKET_PORT;
     SendResponse 302; SendHeader "Location" "/"; EndHeaders], Ok tt),
   {| messages := messages Reference.empty_world;
      log := log Reference.empty_world
             ++ [received [];
                 parsing_error
                   (ValueError
                      "not enough values to unpack (expected 2, got 1)")] |}).
Proof.
  apply (@post_without_length_is_lost Reference.lib
           {| path := "/message"; headers := [("Host", "localhost")];
              rfile := list_byte_of_string "name=Alice&msg=Hi" |}
           Reference.noon Accepting Reference.empty_world); reflexivity.
Defined.


(** A trailing slash is dropped by [joinpath]: [GET /static/] is looked
    up at [/app/static], a directory. *)
Example do_GET_trailing_slash :
  @do_GET Reference.lib Reference.site (Reference.get "/static/") =
  ([SendResponse 200; SendHeader "Content-type" "text/plain"; EndHeaders],
   Raise IsADirectoryError).
Proof. reflexivity. Qed.

(** A body of 65508 bytes of text does not fit in a datagram. *)
Example do_POST_oversized_body :
  @do_POST Reference.lib
    (Reference.post "/message" (List.repeat "a"%byte (N.to_nat 65508)))
  = ([], Raise (OSError "[Errno 90] Message too long")).
Proof. vm_compute. reflexivity. Qed.

Lemma do_GET_absolute_path_witness :
  @do_GET absolute_form_lib host_with_secret
    (Reference.get "http://localhost//etc/secret") =
  ([SendResponse 200;
    SendHeader "Content-type"
      (default "text/plain"
         (@guess_type absolute_form_lib
            (joinpath "/srv/elsewhere" "/etc/secret")));
    EndHeaders; WfileWrite (list_byte_of_string "hunter2")], Ok tt).
Proof.
  apply (@do_GET_absolute_path absolute_form_lib host_with_secret
           (Reference.get "http://localhost//etc/secret") "etc/secret"
           (list_byte_of_string "hunter2") "/srv/elsewhere"); reflexivity.
Defined.

(** * The server processes *)





Lemma occurrences_app (is_it : process_event -> bool)
    (t1 t2 : list process_event) :
  occurrences is_it (t1 ++ t2) = occurrences is_it t1 + occurrences is_it t2.
Proof. unfold occurrences. by rewrite filter_app, length_app. Qed.

Lemma occurrences_cons (is_it : process_event -> bool) (e : process_event)
    (t : list process_event) :
  occurrences is_it (e :: t)
  = (if is_it e then 1 else 0) + occurrences is_it t.
Proof.
  unfold occurrences. rewrite filter_cons.
  case_decide as H; destruct (is_it e); simpl; congruence.
Qed.

Lemma occurrences_loop_records (is_it : process_event -> bool)
    (records : list log_record) :
  (forall r, is_it (LoopRecord r) = false) ->
  occurrences is_it (map LoopRecord records) = 0.
Proof.
  intros H. unfold occurrences.
  induction records as [|r records IH]; simpl; [done|].
  rewrite filter_cons. case_decide as Hr; [|exact IH].
  by rewrite H in Hr.
Qed.


(** X14.  The listener releases what it holds, once, on every way out.
    Whatever the events and the collection: while the loop is on, one
    client is open and nothing is closed; when the function has returned,
    the one client it opened was closed once and the socket was closed
    once; when [bind] raised, no client was opened, nothing was received
    or logged, the collection is untouched and the socket was closed. *)
Theorem socket_server_releases (bind_error : option string)
    (events : list socket_event) (coll : list (gmap string string)) :
  let r := fst (socket_server bind_error events coll) in
  match exit r with
  | Serving =>
      first_stop events = None /\
      occurrences is_client_opened (trace r) = 1 /\
      occurrences is_client_closed (trace r) = 0 /\
      occurrences is_socket_closed (trace r) = 0
  | Returned =>
      occurrences is_client_opened (trace r) = 1 /\
      occurrences is_client_closed (trace r) = 1 /\
      occurrences is_socket_closed (trace r) = 1
  | Died reason =>
      bind_error = Some reason /\
      trace r = [SocketClosed] /\
      snd (socket_server bind_error events coll) = coll
  end.
Proof.
  unfold socket_server. destruct bind_error as [reason|]; simpl; [done|].
  destruct (first_stop events) as [[[|reason]|a]|] eqn:Hstop;
    cbn [wind_down cause_of fmap option_fmap option_map fst snd exit trace];
    rewrite ?occurrences_cons, ?occurrences_app, ?occurrences_loop_records,
      ?occurrences_cons by done;
    repeat split; reflexivity.
Qed.




